(** * Virtual glasses try-on: landmark extraction and placement solver

    A shallow embedding of [src/js/virtual-glasses.js] (class
    [VirtualGlassesTryOn]) and of the parts of the webcam helper class
    [WebcamUILib] that it calls.

    Modelling conventions.
    - JavaScript numbers are idealised as real numbers ([R]): binary64
      rounding, NaN, infinities and signed zeros are not represented.
      Products, sums and quotients are the exact ones.  What is stated
      about the code is either about which operations it applies to which
      values, or a bound that rounding respects; identities that hold in
      exact arithmetic only (a blend of a value with itself being that
      value, for one) are used for the worked numbers and not stated as
      properties of the code.  The module [Binary64] further down has the
      same arithmetic over binary64, and [Rounding] evaluates it where
      rounding decides.
    - A landmark is a JavaScript array [[x, y, z]]; only the entries [0]
      and [1] are ever read, so a landmark is a pair.  An array slot that
      holds [undefined] (or an index past the end of the array, which
      JavaScript also reads as [undefined]) is [None].
    - [this] is passed and returned explicitly.  The 2D drawing context is
      the list of calls made on it, oldest first.
    - A [TypeError] raised by reading a property of [undefined] is an
      explicit completion, caught where the source catches it.
    - A tick of [detectFaces] is taken as one step: what [estimateFaces]
      delivers and the handle from [requestAnimationFrame] are inputs.
    - The quotient [height / width] of the overlay image is the
      JavaScript one only when the native width is not [0]. *)

From Stdlib Require Import Reals Lra Lia List Bool String ZArith.
Import ListNotations.

Open Scope R_scope.

(** ** The [Math] functions used by the source *)

Module Math.

Definition max (a b : R) : R := Rmax a b.
Definition min (a b : R) : R := Rmin a b.
Definition sqrt (a : R) : R := R_sqrt.sqrt a.
Definition pow (b : R) (e : nat) : R := b ^ e.

(** The angle of the vector [(x, y)], in [(-PI, PI]]. *)
Definition atan2 (y x : R) : R :=
  if Rlt_dec 0 x then atan (y / x)
  else if Rlt_dec x 0 then
    if Rle_dec 0 y then atan (y / x) + PI else atan (y / x) - PI
  else if Rlt_dec 0 y then PI / 2
  else if Rlt_dec y 0 then - (PI / 2)
  else 0.

End Math.

(** ** Data *)

(** [landmarks[i]] is an array [[x, y, z]]; [p[0]] and [p[1]] are its first
    two entries. *)
Definition Point : Type := (R * R)%type.

(** The object literal [{ x, y, width, height, angle }] held in
    [this.lastGlassesPosition]. *)
Module Placement.
Record t : Type := mk
  { x : R; y : R; width : R; height : R; angle : R }.
End Placement.

(** The part of an [HTMLImageElement] that the source reads. *)
Module Image.
Record t : Type := mk
  { src : string; complete : bool; width : Z; height : Z }.
End Image.

Module Canvas.
Record t : Type := mk { width : Z; height : Z }.
End Canvas.

(** Calls and property writes on the [CanvasRenderingContext2D]. *)
Inductive CanvasOp : Type :=
| clearRect (x y w h : R)
| save
| restore
| globalAlpha (a : R)
| globalCompositeOperation (mode : string)
| translate (x y : R)
| rotate (a : R)
| drawImage (img : Image.t) (dx dy dw dh : R).

Definition Context2D : Type := list CanvasOp.

(** [WebcamUILib]: the fields behind [getVideoElement], [getCanvasElement],
    [getCanvasContext] and [isActive]. *)
Module WebcamUILib.
Record t : Type := mk
  { video : bool;
    canvas : option Canvas.t;
    ctx : option Context2D;
    isRunning : bool }.

Definition isActive (ui : t) : bool := isRunning ui.
Definition getCanvasContext (ui : t) : option Context2D := ctx ui.
Definition set_ctx (ui : t) (c : Context2D) : t :=
  mk (video ui) (canvas ui) (Some c) (isRunning ui).
End WebcamUILib.

(** The fields of a [VirtualGlassesTryOn] instance.  [model] is [true]
    once the detector object has been stored there; [animationId] is
    [null] or the handle returned by [requestAnimationFrame]. *)
Record VirtualGlassesTryOn : Type := mkApp
  { webcamUI : WebcamUILib.t;
    model : bool;
    animationId : option nat;
    currentGlassesStyle : string;
    currentGlassesImage : string;
    glassesImg : option Image.t;
    isModelLoaded : bool;
    lastGlassesPosition : Placement.t;
    smoothingFactor : R }.

Definition set_lastGlassesPosition (this : VirtualGlassesTryOn)
    (p : Placement.t) : VirtualGlassesTryOn :=
  mkApp (webcamUI this) (model this) (animationId this)
        (currentGlassesStyle this) (currentGlassesImage this)
        (glassesImg this) (isModelLoaded this) p (smoothingFactor this).

Definition set_animationId (this : VirtualGlassesTryOn)
    (id : option nat) : VirtualGlassesTryOn :=
  mkApp (webcamUI this) (model this) id
        (currentGlassesStyle this) (currentGlassesImage this)
        (glassesImg this) (isModelLoaded this) (lastGlassesPosition this)
        (smoothingFactor this).

Definition set_webcamUI (this : VirtualGlassesTryOn)
    (ui : WebcamUILib.t) : VirtualGlassesTryOn :=
  mkApp ui (model this) (animationId this)
        (currentGlassesStyle this) (currentGlassesImage this)
        (glassesImg this) (isModelLoaded this) (lastGlassesPosition this)
        (smoothingFactor this).

(** The sentinel written by the constructor (line 17). *)
Definition sentinel : Placement.t := Placement.mk 0 0 0 0 0.

(** The instance as the constructor leaves it, over a given [WebcamUILib]:
    lines 8-18, then [init] -> [preloadGlassesImages] ->
    [loadGlassesImage(this.currentGlassesImage)], which stores a fresh,
    not yet decoded image. *)
Definition constructor (ui : WebcamUILib.t) : VirtualGlassesTryOn :=
  mkApp ui false None "glasses-04" "3dmodel/glasses-04/glasses_04.png"
        (Some (Image.mk "3dmodel/glasses-04/glasses_04.png" false 0 0))
        false sentinel 0.7.

(** How a call ends: it returns, or it throws a [TypeError]. *)
Inductive Completion : Type :=
| Normal
| TypeError.

(** [landmarks[i]]. *)
Definition index (landmarks : list (option Point)) (i : nat) : option Point :=
  nth i landmarks None.

(** ** [drawGlassesOnFace] (lines 246-375) *)

(** Lines 265-272: an eye centre from the inner corner, the outer corner
    and the top landmark of that eye. *)
Definition eyeCenter (inner outer top : Point) : Point :=
  ((fst inner + fst outer) / 2,
   (snd inner + snd outer + snd top) / 3).

(** Lines 283-286. *)
Definition eyeDistance (leftEyeCenter rightEyeCenter : Point) : R :=
  Math.sqrt
    (Math.pow (fst rightEyeCenter - fst leftEyeCenter) 2 +
     Math.pow (snd rightEyeCenter - snd leftEyeCenter) 2).

(** Lines 289-292: the angle before the clamp. *)
Definition rawAngle (leftEyeCenter rightEyeCenter : Point) : R :=
  Math.atan2 (snd rightEyeCenter - snd leftEyeCenter)
             (fst rightEyeCenter - fst leftEyeCenter).

(** Line 295. *)
Definition faceAngle (leftEyeCenter rightEyeCenter : Point) : R :=
  Math.max (-0.1) (Math.min 0.1 (rawAngle leftEyeCenter rightEyeCenter)).

(** Lines 298-299: the width before the clamp. *)
Definition candidateWidth (img : Image.t)
    (leftEyeCenter rightEyeCenter : Point) : R :=
  let glassesScale := eyeDistance leftEyeCenter rightEyeCenter / 80 in
  IZR (Image.width img) * glassesScale.

(** Lines 303-306. *)
Definition finalWidth (img : Image.t)
    (leftEyeCenter rightEyeCenter : Point) : R :=
  let minWidth := eyeDistance leftEyeCenter rightEyeCenter * 1.8 in
  let maxWidth := eyeDistance leftEyeCenter rightEyeCenter * 2.5 in
  Math.max minWidth
    (Math.min maxWidth (candidateWidth img leftEyeCenter rightEyeCenter)).

(** Line 307.  The value assigned on line 300 is overwritten here before
    it is read. *)
Definition finalHeight (img : Image.t)
    (leftEyeCenter rightEyeCenter : Point) : R :=
  finalWidth img leftEyeCenter rightEyeCenter *
  (IZR (Image.height img) / IZR (Image.width img)).

(** Lines 275-307: the values the frame asks for, before smoothing. *)
Definition rawPlacement (img : Image.t)
    (leftEyeCenter rightEyeCenter : Point) : Placement.t :=
  let eyesCenterX := (fst leftEyeCenter + fst rightEyeCenter) / 2 in
  let eyesCenterY := (snd leftEyeCenter + snd rightEyeCenter) / 2 in
  let glassesX := eyesCenterX in
  let glassesY := eyesCenterY - 5 in
  Placement.mk glassesX glassesY
    (finalWidth img leftEyeCenter rightEyeCenter)
    (finalHeight img leftEyeCenter rightEyeCenter)
    (faceAngle leftEyeCenter rightEyeCenter).

(** Lines 310-319: a stored [x] that is [0] makes the frame overwrite the
    stored placement with the raw one. *)
Definition bootstrap (last raw : Placement.t) : Placement.t :=
  if Req_dec_T (Placement.x last) 0 then raw else last.

(** Lines 321-335: the blend of the stored placement and the raw one. *)
Definition smooth (last raw : Placement.t) : Placement.t :=
  let smoothingFactor := 0.6 in
  Placement.mk
    (Placement.x last * smoothingFactor
       + Placement.x raw * (1 - smoothingFactor))
    (Placement.y last * smoothingFactor
       + Placement.y raw * (1 - smoothingFactor))
    (Placement.width last * smoothingFactor
       + Placement.width raw * (1 - smoothingFactor))
    (Placement.height last * smoothingFactor
       + Placement.height raw * (1 - smoothingFactor))
    (Placement.angle last * smoothingFactor
       + Placement.angle raw * (1 - smoothingFactor)).

(** Lines 310-335: what [this.lastGlassesPosition] holds after a frame
    that reaches the smoothing code. *)
Definition solve (last raw : Placement.t) : Placement.t :=
  smooth (bootstrap last raw) raw.

(** Lines 338-374: the calls made on the context (the debug block is dead
    code, [if (false)]). *)
Definition drawCalls (img : Image.t) (p : Placement.t) : list CanvasOp :=
  [ save;
    globalAlpha 0.9;
    globalCompositeOperation "source-over";
    translate (Placement.x p) (Placement.y p);
    rotate (Placement.angle p);
    drawImage img (- Placement.width p / 2) (- Placement.height p / 2)
              (Placement.width p) (Placement.height p);
    restore ].

Definition drawGlassesOnFace (this : VirtualGlassesTryOn) (ctx : Context2D)
    (landmarks : list (option Point))
    : Completion * VirtualGlassesTryOn * Context2D :=
  match glassesImg this with
  | None => (Normal, this, ctx)
  | Some img =>
    if negb (Image.complete img) then (Normal, this, ctx) else
    let leftEyeInner := index landmarks 133 in
    let rightEyeInner := index landmarks 362 in
    let leftEyeOuter := index landmarks 33 in
    let rightEyeOuter := index landmarks 263 in
    let leftEyeTop := index landmarks 159 in
    let rightEyeTop := index landmarks 386 in
    let noseTip := index landmarks 1 in
    let noseBridge := index landmarks 168 in
    match leftEyeInner, rightEyeInner, leftEyeOuter, rightEyeOuter with
    | Some leftEyeInner, Some rightEyeInner,
      Some leftEyeOuter, Some rightEyeOuter =>
      (* [leftEyeTop[1]] and [rightEyeTop[1]] are read unguarded *)
      match leftEyeTop with
      | None => (TypeError, this, ctx)
      | Some leftEyeTop =>
        match rightEyeTop with
        | None => (TypeError, this, ctx)
        | Some rightEyeTop =>
          let leftEyeCenter := eyeCenter leftEyeInner leftEyeOuter leftEyeTop in
          let rightEyeCenter :=
            eyeCenter rightEyeInner rightEyeOuter rightEyeTop in
          let raw := rawPlacement img leftEyeCenter rightEyeCenter in
          let smoothed := solve (lastGlassesPosition this) raw in
          (Normal, set_lastGlassesPosition this smoothed,
           ctx ++ drawCalls img smoothed)
        end
      end
    | _, _, _, _ => (Normal, this, ctx)
    end
  end.

(** ** The detection loop (lines 182-241) *)

(** One element of the array returned by [estimateFaces]. *)
Record Face : Type := mkFace
  { scaledMesh : option (list (option Point)) }.

(** Lines 224-228: the callback given to [faces.forEach]. *)
Definition onFace (this : VirtualGlassesTryOn) (ctx : Context2D)
    (face : Face) : Completion * VirtualGlassesTryOn * Context2D :=
  match scaledMesh face with
  | Some mesh =>
    if (168 <? List.length mesh)%nat
    then drawGlassesOnFace this ctx mesh
    else (Normal, this, ctx)
  | None => (Normal, this, ctx)
  end.

(** [faces.forEach]: a throw in the callback ends the iteration. *)
Fixpoint forEach (this : VirtualGlassesTryOn) (ctx : Context2D)
    (faces : list Face) : Completion * VirtualGlassesTryOn * Context2D :=
  match faces with
  | [] => (Normal, this, ctx)
  | face :: rest =>
    match onFace this ctx face with
    | (Normal, this', ctx') => forEach this' ctx' rest
    | (TypeError, this', ctx') => (TypeError, this', ctx')
    end
  end.

(** Lines 202-241: one tick.  [estimate] is what
    [await this.model.estimateFaces(...)] delivers ([None] when it
    rejects); [handle] is what [requestAnimationFrame] returns.  The
    [catch] clause only logs, so both completions of the [try] block go
    on to line 238. *)
Definition detectFaces (this : VirtualGlassesTryOn)
    (estimate : option (list Face)) (handle : nat) : VirtualGlassesTryOn :=
  let ui := webcamUI this in
  if negb (WebcamUILib.isActive ui) || negb (model this) then this else
  match WebcamUILib.video ui, WebcamUILib.canvas ui,
        WebcamUILib.getCanvasContext ui with
  | true, Some canvas, Some ctx =>
    let this1 :=
      match estimate with
      | None => this
      | Some faces =>
        let ctx1 :=
          ctx ++ [clearRect 0 0 (IZR (Canvas.width canvas))
                            (IZR (Canvas.height canvas))] in
        let '(_, this', ctx') := forEach this ctx1 faces in
        set_webcamUI this' (WebcamUILib.set_ctx (webcamUI this') ctx')
      end in
    if WebcamUILib.isActive (webcamUI this1)
    then set_animationId this1 (Some handle)
    else this1
  | _, _, _ => this
  end.

(** Lines 182-187.  The call of [detectFaces] runs that tick. *)
Definition startFaceDetection (this : VirtualGlassesTryOn)
    (estimate : option (list Face)) (handle : nat) : VirtualGlassesTryOn :=
  if negb (WebcamUILib.isActive (webcamUI this)) || negb (model this)
  then this
  else detectFaces this estimate handle.

(** Lines 192-197.  A handle is truthy when it is not [0]. *)
Definition stopFaceDetection (this : VirtualGlassesTryOn)
    : VirtualGlassesTryOn :=
  match animationId this with
  | Some id => if Nat.eqb id 0 then this else set_animationId this None
  | None => this
  end.

(** ** Choosing a style (lines 114-124 and 380-393) *)

(** The clicked [.glasses-option] element: its [dataset]. *)
Record GlassesOption : Type := mkOption
  { dataset_style : string; dataset_image : string }.

(** [new Image()] with [src] assigned: nothing is decoded yet. *)
Definition loadGlassesImage (this : VirtualGlassesTryOn) (imageSrc : string)
    : VirtualGlassesTryOn :=
  mkApp (webcamUI this) (model this) (animationId this)
        (currentGlassesStyle this) (currentGlassesImage this)
        (Some (Image.mk imageSrc false 0 0))
        (isModelLoaded this) (lastGlassesPosition this)
        (smoothingFactor this).

Definition selectGlasses (this : VirtualGlassesTryOn)
    (element : GlassesOption) : VirtualGlassesTryOn :=
  let this1 :=
    mkApp (webcamUI this) (model this) (animationId this)
          (dataset_style element) (dataset_image element)
          (glassesImg this) (isModelLoaded this) (lastGlassesPosition this)
          (smoothingFactor this) in
  loadGlassesImage this1 (currentGlassesImage this1).

(** The browser finishes decoding the current image: [complete] becomes
    [true] and the native size is known. *)
Definition imageLoaded (this : VirtualGlassesTryOn) (w h : Z)
    : VirtualGlassesTryOn :=
  match glassesImg this with
  | None => this
  | Some img =>
    mkApp (webcamUI this) (model this) (animationId this)
          (currentGlassesStyle this) (currentGlassesImage this)
          (Some (Image.mk (Image.src img) true w h))
          (isModelLoaded this) (lastGlassesPosition this)
          (smoothingFactor this)
  end.

(** The loop over a sequence of ticks. *)
Fixpoint run (this : VirtualGlassesTryOn)
    (ticks : list (option (list Face) * nat)) : VirtualGlassesTryOn :=
  match ticks with
  | [] => this
  | (estimate, handle) :: rest => run (detectFaces this estimate handle) rest
  end.

Arguments index : simpl never.

(** ** Vocabulary of the statements *)

(** The landmarks that [drawGlassesOnFace] needs: inner corners, outer
    corners and tops of both eyes. *)
Definition requiredIndices : list nat := [133; 362; 33; 263; 159; 386]%nat.

(** All six needed landmarks are present. *)
Definition validLandmarks (landmarks : list (option Point)) : Prop :=
  forall i, In i requiredIndices -> index landmarks i <> None.

(** The two eye centres of a landmark array ([(0, 0)] stands in for a
    missing landmark; it is never used on a valid array). *)
Definition pointAt (landmarks : list (option Point)) (i : nat) : Point :=
  match index landmarks i with Some p => p | None => (0, 0) end.

Definition leftEyeCenterOf (landmarks : list (option Point)) : Point :=
  eyeCenter (pointAt landmarks 133) (pointAt landmarks 33)
            (pointAt landmarks 159).

Definition rightEyeCenterOf (landmarks : list (option Point)) : Point :=
  eyeCenter (pointAt landmarks 362) (pointAt landmarks 263)
            (pointAt landmarks 386).

(** The raw placement a valid landmark array asks for. *)
Definition rawOf (img : Image.t) (landmarks : list (option Point))
    : Placement.t :=
  rawPlacement img (leftEyeCenterOf landmarks) (rightEyeCenterOf landmarks).

Definition isDrawImage (op : CanvasOp) : bool :=
  match op with drawImage _ _ _ _ _ => true | _ => false end.

(** The [drawImage] calls recorded on a context. *)
Definition drawInstructions (c : option Context2D) : list CanvasOp :=
  match c with
  | Some ops => filter isDrawImage ops
  | None => []
  end.

(** The overlay image is there and decoded. *)
Definition assetReady (this : VirtualGlassesTryOn) (img : Image.t) : Prop :=
  glassesImg this = Some img /\ Image.complete img = true.

(** A tick on [this] gets as far as the face loop. *)
Definition loopLive (this : VirtualGlassesTryOn) : Prop :=
  WebcamUILib.isRunning (webcamUI this) = true /\
  model this = true /\
  WebcamUILib.video (webcamUI this) = true /\
  WebcamUILib.canvas (webcamUI this) <> None /\
  WebcamUILib.ctx (webcamUI this) <> None.

(** A tick that delivers exactly one face with the given mesh. *)
Definition oneFace (landmarks : list (option Point)) (handle : nat)
    : option (list Face) * nat :=
  (Some [mkFace (Some landmarks)], handle).

(** ** Concrete inputs used in the examples *)

(** A decoded overlay image of native size 200 x 80. *)
Definition image200x80 : Image.t :=
  Image.mk "3dmodel/glasses-04/glasses_04.png" true 200 80.

(** A running camera with a 640 x 480 canvas and nothing drawn yet. *)
Definition runningUI : WebcamUILib.t :=
  WebcamUILib.mk true (Some (Canvas.mk 640 480)) (Some []) true.

(** A running application whose stored placement is [last]. *)
Definition runningApp (last : Placement.t) : VirtualGlassesTryOn :=
  mkApp runningUI true None "glasses-04" "3dmodel/glasses-04/glasses_04.png"
        (Some image200x80) true last 0.7.

(** A mesh given slot by slot. *)
Definition meshOf (slot : nat -> option Point) (n : nat)
    : list (option Point) :=
  map slot (seq 0 n).

(** An array of length 169 whose slot 159 holds [undefined]. *)
Definition landmarks169 : list (option Point) :=
  meshOf (fun i => if Nat.eqb i 159 then None else Some (IZR (Z.of_nat i), 0))
         169.

(** A full mesh of 468 landmarks whose eye centres are [(cx - 20, 200)] and
    [(cx + 20, 200)]. *)
Definition meshAround (cx : R) : list (option Point) :=
  meshOf (fun i =>
            if Nat.eqb i 133 then Some (cx - 10, 200)
            else if Nat.eqb i 33 then Some (cx - 30, 200)
            else if Nat.eqb i 159 then Some (cx - 20, 200)
            else if Nat.eqb i 362 then Some (cx + 10, 200)
            else if Nat.eqb i 263 then Some (cx + 30, 200)
            else if Nat.eqb i 386 then Some (cx + 20, 200)
            else Some (cx, 230))
         468.

(** The eye centres of the worked example. *)
Definition leftEye100 : Point := (100, 200).
Definition rightEye140 : Point := (140, 200).

(** Right eye centres 45 degrees below and above the left one (the image
    [y] axis points down). *)
Definition rightEyeLow : Point := (140, 240).
Definition rightEyeHigh : Point := (140, 160).

(** The full mesh around [x = 120] with the two nose landmarks (slots 1
    and 168) replaced. *)
Definition meshWithNose (noseTip noseBridge : Point) : list (option Point) :=
  meshOf (fun i =>
            if Nat.eqb i 1 then Some noseTip
            else if Nat.eqb i 168 then Some noseBridge
            else index (meshAround 120) i)
         468.

(** A running application with a frame request pending. *)
Definition loopingApp (last : Placement.t) : VirtualGlassesTryOn :=
  set_animationId (runningApp last) (Some 7%nat).

(** ** Aspect ratio *)

(** ** Streams of frames *)



(** [n] ticks that each deliver one face with the same mesh. *)
Definition constantStream (landmarks : list (option Point)) (handle n : nat)
    : list (option (list Face) * nat) :=
  repeat (oneFace landmarks handle) n.

(** The running application after a click on another style whose image,
    of native size 200 x 100, has finished loading. *)
Definition otherStyle : GlassesOption :=
  mkOption "glasses-05" "3dmodel/glasses-05/glasses_05.png".


From Stdlib Require Import DecimalString.

(** ** Moving a mesh *)

(** ** Bounds kept by the loop *)




(** Right eye centres to the left of [leftEye100]: level with it, and one
    unit higher on the screen. *)
Definition rightEyeSwapped : Point := (60, 200).
Definition rightEyeSwappedUp : Point := (60, 199).

(** ** States of the loop *)

(** There is no overlay image, or it is not decoded yet (line 247). *)
Definition assetMissing (this : VirtualGlassesTryOn) : Prop :=
  match glassesImg this with
  | None => True
  | Some img => Image.complete img = false
  end.

(** One of the guards on lines 203 and 210 fails. *)
Definition loopDead (this : VirtualGlassesTryOn) : Prop :=
  WebcamUILib.isRunning (webcamUI this) = false \/
  model this = false \/
  WebcamUILib.video (webcamUI this) = false \/
  WebcamUILib.canvas (webcamUI this) = None \/
  WebcamUILib.ctx (webcamUI this) = None.

(** The four eye corners are there but one of the two eye tops is not. *)
Definition topMissing (landmarks : list (option Point)) : Prop :=
  index landmarks 133 <> None /\ index landmarks 362 <> None /\
  index landmarks 33 <> None /\ index landmarks 263 <> None /\
  (index landmarks 159 = None \/ index landmarks 386 = None).

(** One of the four eye corners is not there. *)
Definition cornerMissing (landmarks : list (option Point)) : Prop :=
  index landmarks 133 = None \/ index landmarks 362 = None \/
  index landmarks 33 = None \/ index landmarks 263 = None.

(** The mesh around [x = 120] with slot [hole] emptied. *)
Definition meshWithHole (hole : nat) : list (option Point) :=
  meshOf (fun i => if Nat.eqb i hole then None else index (meshAround 120) i)
         468.

(** The number of faces delivered over a sequence of ticks. *)
Fixpoint totalFaces (ticks : list (option (list Face) * nat)) : nat :=
  match ticks with
  | [] => 0
  | (Some faces, _) :: rest => List.length faces + totalFaces rest
  | (None, _) :: rest => totalFaces rest
  end.

(** The ticks of a detector that fails every time. *)
Definition failedTicks (handles : list nat)
    : list (option (list Face) * nat) :=
  map (fun handle => (@None (list Face), handle)) handles.

(** ** The tick after the await *)

(** Lines 220-240: what [detectFaces] does once [estimateFaces] has
    settled.  The [canvas] and [ctx] read on lines 207-208 are the objects
    held by [this.webcamUI], which assigns those fields in its constructor
    only; what they hold when the tick resumes is read from there.  The
    guards of lines 203 and 210 are not evaluated again. *)
Definition detectFacesResumed (this : VirtualGlassesTryOn)
    (estimate : option (list Face)) (handle : nat) : VirtualGlassesTryOn :=
  match WebcamUILib.canvas (webcamUI this),
        WebcamUILib.getCanvasContext (webcamUI this) with
  | Some canvas, Some ctx =>
    let this1 :=
      match estimate with
      | None => this
      | Some faces =>
        let ctx1 :=
          ctx ++ [clearRect 0 0 (IZR (Canvas.width canvas))
                            (IZR (Canvas.height canvas))] in
        let '(_, this', ctx') := forEach this ctx1 faces in
        set_webcamUI this' (WebcamUILib.set_ctx (webcamUI this') ctx')
      end in
    if WebcamUILib.isActive (webcamUI this1)
    then set_animationId this1 (Some handle)
    else this1
  | _, _ => this
  end.

(** ** The face count display (lines 230-231 and [updateFaceCount]) *)

(** The argument of the call [this.webcamUI.updateFaceCount(faces.length)]
    made by a tick, [None] when the tick makes no such call: line 231 is
    inside the [try] block, after the face loop. *)
Definition faceCountUpdate (this : VirtualGlassesTryOn)
    (estimate : option (list Face)) : option nat :=
  let ui := webcamUI this in
  if negb (WebcamUILib.isActive ui) || negb (model this) then None else
  match WebcamUILib.video ui, WebcamUILib.canvas ui,
        WebcamUILib.getCanvasContext ui with
  | true, Some canvas, Some ctx =>
    match estimate with
    | None => None
    | Some faces =>
      let ctx1 :=
        ctx ++ [clearRect 0 0 (IZR (Canvas.width canvas))
                          (IZR (Canvas.height canvas))] in
      match forEach this ctx1 faces with
      | (Normal, _, _) => Some (List.length faces)
      | (TypeError, _, _) => None
      end
    end
  | _, _, _ => None
  end.

(** ** Stopping and starting the camera *)

(** An error thrown at [startCamera]: its [name] and [message]. *)
Module CameraError.
Record t : Type := mk { name : string; message : string }.
End CameraError.

(** What [getCameraErrorMessage] returns: a string, or the value that the
    object literal inherits from [Object.prototype] under that key. *)
Inductive ErrorMessage : Type :=
| text (s : string)
| inherited (key : string).

(** The object literal of [getCameraErrorMessage]. *)
Definition errorMessages : list (string * string) :=
  [ ("NotAllowedError",
     "Camera access denied. Please allow camera permission and refresh the page.");
    ("NotFoundError",
     "No camera found. Please connect a camera and refresh the page.");
    ("NotReadableError",
     "Camera is busy or not accessible. Please close other applications using the camera.");
    ("OverconstrainedError",
     "Camera constraints not supported. Please try with a different camera.");
    ("SecurityError",
     "Camera access blocked due to security restrictions.");
    ("AbortError", "Camera access was aborted.");
    ("TypeError", "Camera not supported in this browser.") ]%string.

(** The property names every object literal inherits. *)
Definition objectPrototypeKeys : list string :=
  [ "constructor"; "hasOwnProperty"; "isPrototypeOf"; "propertyIsEnumerable";
    "toLocaleString"; "toString"; "valueOf"; "__proto__";
    "__defineGetter__"; "__defineSetter__"; "__lookupGetter__";
    "__lookupSetter__" ]%string.

Fixpoint ownProperty (key : string) (object : list (string * string))
    : option string :=
  match object with
  | [] => None
  | (k, v) :: rest => if String.eqb k key then Some v else ownProperty key rest
  end.

(** [errorMessages[error.name] || `Camera error: ${error.message}`]: an
    empty string is falsy, an inherited function or object is truthy. *)
Definition getCameraErrorMessage (error : CameraError.t) : ErrorMessage :=
  let fallback :=
    text ("Camera error: " ++ CameraError.message error)%string in
  match ownProperty (CameraError.name error) errorMessages with
  | Some s => if String.eqb s "" then fallback else text s
  | None =>
    if existsb (String.eqb (CameraError.name error)) objectPrototypeKeys
    then inherited (CameraError.name error)
    else fallback
  end.

(** What [getUserMedia] and the wait for the video metadata deliver: the
    size of the video, or the error thrown. *)
Inductive MediaOutcome : Type :=
| granted (videoWidth videoHeight : Z)
| refused (error : CameraError.t).

(** [n || fallback] on numbers: [0] is falsy. *)
Definition orElse (n fallback : Z) : Z := if Z.eqb n 0 then fallback else n.

Module Webcam.

(** What [startCamera] returns, the [WebcamUILib] it leaves and the
    argument of [showError], if any. *)
Record Started : Type := mkStarted
  { success : bool; ui : WebcamUILib.t; shown : option ErrorMessage }.

(** [WebcamUILib.startCamera], taken as one step.  Granted access with no
    video element throws a [TypeError] at [this.video.srcObject = ...],
    which the [catch] clause handles like a refusal (the message of that
    error is the engine's and is not used).  The media stream and the page
    elements are outside the record. *)
Definition startCamera (this : WebcamUILib.t) (outcome : MediaOutcome)
    : Started :=
  match outcome with
  | granted videoWidth videoHeight =>
    if WebcamUILib.video this then
      let canvas :=
        match WebcamUILib.canvas this with
        | Some _ =>
          Some (Canvas.mk (orElse videoWidth 640) (orElse videoHeight 480))
        | None => None
        end in
      mkStarted true
        (WebcamUILib.mk (WebcamUILib.video this) canvas
                        (WebcamUILib.ctx this) true)
        None
    else
      mkStarted false this
        (Some (getCameraErrorMessage
                 (CameraError.mk "TypeError"
                    "Cannot set properties of null (setting 'srcObject')")))
  | refused error =>
    mkStarted false this (Some (getCameraErrorMessage error))
  end.

(** [WebcamUILib.stopCamera], without the [onStop] callback. *)
Definition stopCamera (this : WebcamUILib.t) : WebcamUILib.t :=
  let ctx :=
    match WebcamUILib.canvas this, WebcamUILib.ctx this with
    | Some canvas, Some ctx =>
      Some (ctx ++ [clearRect 0 0 (IZR (Canvas.width canvas))
                              (IZR (Canvas.height canvas))])
    | _, other => other
    end in
  WebcamUILib.mk (WebcamUILib.video this) (WebcamUILib.canvas this) ctx false.

End Webcam.

(** ** The other methods of [VirtualGlassesTryOn] *)

(** The callbacks installed by [setupWebcamCallbacks] (lines 79-85); their
    calls of [updateStatus] and [console.error] write to the page only. *)
Definition onCameraStart (this : VirtualGlassesTryOn) : VirtualGlassesTryOn :=
  this.

Definition onCameraStop (this : VirtualGlassesTryOn) : VirtualGlassesTryOn :=
  stopFaceDetection this.

Definition onCameraError (this : VirtualGlassesTryOn) : VirtualGlassesTryOn :=
  stopFaceDetection this.

(** Lines 140-143; [this.webcamUI.stopCamera()] ends with the [onStop]
    callback. *)
Definition stopCamera (this : VirtualGlassesTryOn) : VirtualGlassesTryOn :=
  let this1 := stopFaceDetection this in
  let this2 := set_webcamUI this1 (Webcam.stopCamera (webcamUI this1)) in
  onCameraStop this2.

(** How [loadFaceDetectionModel] settles. *)
Inductive Settled : Type :=
| fulfilled
| rejected.

(** Lines 156-177, taken as one step; [loaded] tells whether
    [faceLandmarksDetection.load] succeeds. *)
Definition loadFaceDetectionModel (this : VirtualGlassesTryOn)
    (loaded : bool) : Settled * VirtualGlassesTryOn :=
  if model this || isModelLoaded this then (fulfilled, this)
  else if loaded then
    (fulfilled,
     mkApp (webcamUI this) true (animationId this)
           (currentGlassesStyle this) (currentGlassesImage this)
           (glassesImg this) true (lastGlassesPosition this)
           (smoothingFactor this))
  else (rejected, this).

(** Lines 129-135, taken as one step; [WebcamUILib.startCamera] calls the
    [onStart] or the [onError] callback.  A rejected model load rejects
    the whole call before [startFaceDetection]. *)
Definition startCamera (this : VirtualGlassesTryOn) (outcome : MediaOutcome)
    (loaded : bool) (estimate : option (list Face)) (handle : nat)
    : Settled * VirtualGlassesTryOn :=
  let started := Webcam.startCamera (webcamUI this) outcome in
  let this1 := set_webcamUI this (Webcam.ui started) in
  if Webcam.success started then
    let this2 := onCameraStart this1 in
    match loadFaceDetectionModel this2 loaded with
    | (fulfilled, this3) =>
      (fulfilled, startFaceDetection this3 estimate handle)
    | (rejected, this3) => (rejected, this3)
    end
  else (fulfilled, onCameraError this1).

(** Lines 435-445. *)
Definition cleanup (this : VirtualGlassesTryOn) : VirtualGlassesTryOn :=
  let this1 := stopFaceDetection this in
  let this2 :=
    onCameraStop
      (set_webcamUI this1 (Webcam.stopCamera (webcamUI this1))) in
  mkApp (webcamUI this2) false (animationId this2)
        (currentGlassesStyle this2) (currentGlassesImage this2)
        (glassesImg this2) false (lastGlassesPosition this2)
        (smoothingFactor this2).

(** Lines 450-455. *)
Definition getCurrentGlasses (this : VirtualGlassesTryOn)
    : string * string :=
  (currentGlassesStyle this, currentGlassesImage this).

(** Lines 460-462: [animationId !== null && this.webcamUI.isActive()]. *)
Definition isFaceDetectionActive (this : VirtualGlassesTryOn) : bool :=
  match animationId this with
  | Some _ => WebcamUILib.isActive (webcamUI this)
  | None => false
  end.

(** Lines 467-480 without the merge of the settings (line 468), taken as
    one step: the loaded model is dropped and, when the camera runs,
    loaded again, after which [startFaceDetection] runs. *)
Definition updateFaceDetectionConfig (this : VirtualGlassesTryOn)
    (loaded : bool) (estimate : option (list Face)) (handle : nat)
    : VirtualGlassesTryOn :=
  if isModelLoaded this then
    let this1 :=
      mkApp (webcamUI this) false (animationId this)
            (currentGlassesStyle this) (currentGlassesImage this)
            (glassesImg this) false (lastGlassesPosition this)
            (smoothingFactor this) in
    if WebcamUILib.isActive (webcamUI this1) then
      match loadFaceDetectionModel this1 loaded with
      | (fulfilled, this2) => startFaceDetection this2 estimate handle
      | (rejected, this2) => this2
      end
    else this1
  else this.

(** ** Everything that can happen to an instance *)

Inductive Action : Type :=
| tick (estimate : option (list Face)) (handle : nat)
| resumedTick (estimate : option (list Face)) (handle : nat)
| clickStyle (element : GlassesOption)
| imageArrives (w h : Z)
| clickStart (outcome : MediaOutcome) (loaded : bool)
             (estimate : option (list Face)) (handle : nat)
| clickStop
| pageHidden
| pageVisible (estimate : option (list Face)) (handle : nat)
| configure (loaded : bool) (estimate : option (list Face)) (handle : nat)
| unload.

(** Lines 57-73 and 523-536: which method each event runs. *)
Definition act (this : VirtualGlassesTryOn) (a : Action)
    : VirtualGlassesTryOn :=
  match a with
  | tick estimate handle => detectFaces this estimate handle
  | resumedTick estimate handle => detectFacesResumed this estimate handle
  | clickStyle element => selectGlasses this element
  | imageArrives w h => imageLoaded this w h
  | clickStart outcome loaded estimate handle =>
    snd (startCamera this outcome loaded estimate handle)
  | clickStop => stopCamera this
  | pageHidden => stopFaceDetection this
  | pageVisible estimate handle =>
    if WebcamUILib.isActive (webcamUI this)
    then startFaceDetection this estimate handle
    else this
  | configure loaded estimate handle =>
    updateFaceDetectionConfig this loaded estimate handle
  | unload => cleanup this
  end.

Definition actAll (this : VirtualGlassesTryOn) (actions : list Action)
    : VirtualGlassesTryOn :=
  fold_left act actions this.

(** ** [updateFaceCount] *)

(** [`${count}`]: the decimal digits of the count. *)
Definition decimal (count : nat) : string :=
  NilEmpty.string_of_uint (Nat.to_uint count).

(** The text and the colour that [updateFaceCount] writes to the element
    [faceCount] (when the page has one). *)
Definition updateFaceCount (count : nat) : string * string :=
  match count with
  | O => ("No faces detected - look at the camera", "#856404")
  | S O => ("✅ Face detected - glasses applied!", "#155724")
  | _ => ("✅ " ++ decimal count ++ " faces detected", "#155724")
  end%string.

(** The overlay image element is the one requested for the current
    style. *)
Definition imageMatchesStyle (this : VirtualGlassesTryOn) : Prop :=
  exists img,
    glassesImg this = Some img /\ Image.src img = currentGlassesImage this.

(** * The arithmetic of [drawGlassesOnFace] in binary64

    The definitions above read JavaScript numbers as real numbers.  Those
    of this module are the same source lines over binary64, JavaScript's
    own number type, with the rounding of every operation.  They are used
    to evaluate the code at concrete inputs where rounding decides the
    outcome.  [Math.sqrt] is the correctly rounded square root and
    [Math.pow(v, 2)] the correctly rounded square.  The value returned by
    [Math.atan2], which the language does not fix bit for bit, is an
    input. *)

From Stdlib Require PrimFloat.

Set Warnings "-inexact-float".

Module Binary64.

Import PrimFloat.
#[local] Open Scope float_scope.

Definition Number : Type := float.

(** The number that holds an integer (exact below [2 ^ 53]). *)
Fixpoint ofPositive (p : positive) : Number :=
  match p with
  | xH => 1
  | xO q => 2 * ofPositive q
  | xI q => 2 * ofPositive q + 1
  end.

Definition ofZ (z : Z) : Number :=
  match z with
  | Z0 => 0
  | Zpos p => ofPositive p
  | Zneg p => - ofPositive p
  end.

(** [Math.max] and [Math.min]: [NaN] if an argument is [NaN]; of the two
    zeros, [+0] is the larger. *)
Definition max (a b : Number) : Number :=
  if is_nan a || is_nan b then nan
  else if a <? b then b
  else if b <? a then a
  else if get_sign a then b else a.

Definition min (a b : Number) : Number :=
  if is_nan a || is_nan b then nan
  else if a <? b then a
  else if b <? a then b
  else if get_sign a then a else b.

Definition pow2 (b : Number) : Number := b * b.

Definition Point : Type := (Number * Number)%type.

Record Placement : Type := mkPlacement
  { x : Number; y : Number; width : Number; height : Number;
    angle : Number }.

(** Line 17. *)
Definition sentinel : Placement := mkPlacement 0 0 0 0 0.

(** Lines 265-272. *)
Definition eyeCenter (inner outer top : Point) : Point :=
  ((fst inner + fst outer) / 2,
   (snd inner + snd outer + snd top) / 3).

(** Lines 283-286. *)
Definition eyeDistance (leftEyeCenter rightEyeCenter : Point) : Number :=
  sqrt (pow2 (fst rightEyeCenter - fst leftEyeCenter) +
        pow2 (snd rightEyeCenter - snd leftEyeCenter)).

(** Line 295, on the value [atan2Value] of the call on lines 289-292. *)
Definition faceAngle (atan2Value : Number) : Number :=
  max (-0.1) (min 0.1 atan2Value).

(** Lines 298-299. *)
Definition candidateWidth (img : Image.t)
    (leftEyeCenter rightEyeCenter : Point) : Number :=
  let glassesScale := eyeDistance leftEyeCenter rightEyeCenter / 80 in
  ofZ (Image.width img) * glassesScale.

(** Lines 303-306. *)
Definition finalWidth (img : Image.t)
    (leftEyeCenter rightEyeCenter : Point) : Number :=
  let minWidth := eyeDistance leftEyeCenter rightEyeCenter * 1.8 in
  let maxWidth := eyeDistance leftEyeCenter rightEyeCenter * 2.5 in
  max minWidth
      (min maxWidth (candidateWidth img leftEyeCenter rightEyeCenter)).

(** Line 307. *)
Definition finalHeight (img : Image.t)
    (leftEyeCenter rightEyeCenter : Point) : Number :=
  finalWidth img leftEyeCenter rightEyeCenter *
  (ofZ (Image.height img) / ofZ (Image.width img)).

(** Lines 275-307. *)
Definition rawPlacement (img : Image.t)
    (leftEyeCenter rightEyeCenter : Point) (atan2Value : Number)
    : Placement :=
  let eyesCenterX := (fst leftEyeCenter + fst rightEyeCenter) / 2 in
  let eyesCenterY := (snd leftEyeCenter + snd rightEyeCenter) / 2 in
  let glassesX := eyesCenterX in
  let glassesY := eyesCenterY - 5 in
  mkPlacement glassesX glassesY
    (finalWidth img leftEyeCenter rightEyeCenter)
    (finalHeight img leftEyeCenter rightEyeCenter)
    (faceAngle atan2Value).

(** Lines 310-319: [this.lastGlassesPosition.x === 0]. *)
Definition bootstrap (last raw : Placement) : Placement :=
  if x last =? 0 then raw else last.

(** Lines 321-335. *)
Definition smooth (last raw : Placement) : Placement :=
  let smoothingFactor := 0.6 in
  mkPlacement
    (x last * smoothingFactor + x raw * (1 - smoothingFactor))
    (y last * smoothingFactor + y raw * (1 - smoothingFactor))
    (width last * smoothingFactor + width raw * (1 - smoothingFactor))
    (height last * smoothingFactor + height raw * (1 - smoothingFactor))
    (angle last * smoothingFactor + angle raw * (1 - smoothingFactor)).

(** Lines 310-335. *)
Definition solve (last raw : Placement) : Placement :=
  smooth (bootstrap last raw) raw.




End Binary64.


(** ** Basic facts about the solver *)

Lemma placement_eq (p q : Placement.t) :
  Placement.x p = Placement.x q ->
  Placement.y p = Placement.y q ->
  Placement.width p = Placement.width q ->
  Placement.height p = Placement.height q ->
  Placement.angle p = Placement.angle q ->
  p = q.
Proof.
  destruct p, q; simpl; intros; subst; reflexivity.
Qed.

Lemma smooth_same (raw : Placement.t) : smooth raw raw = raw.
Proof.
  apply placement_eq; unfold smooth; simpl; lra.
Qed.

Lemma solve_bootstrap (last raw : Placement.t) :
  Placement.x last = 0 -> solve last raw = raw.
Proof.
  intros Hx. unfold solve, bootstrap.
  destruct (Req_dec_T (Placement.x last) 0) as [_ | Hne].
  - apply smooth_same.
  - contradiction.
Qed.

Lemma solve_smooth (last raw : Placement.t) :
  Placement.x last <> 0 -> solve last raw = smooth last raw.
Proof.
  intros Hx. unfold solve, bootstrap.
  destruct (Req_dec_T (Placement.x last) 0) as [He | _].
  - contradiction.
  - reflexivity.
Qed.

Lemma validLandmarks_index (landmarks : list (option Point)) (i : nat) :
  validLandmarks landmarks -> In i requiredIndices ->
  index landmarks i = Some (pointAt landmarks i).
Proof.
  intros Hv Hi. specialize (Hv i Hi). unfold pointAt.
  destruct (index landmarks i); [reflexivity | contradiction].
Qed.

(** A frame with the asset ready and the six landmarks present reaches the
    smoothing code and the drawing calls. *)
Lemma drawGlassesOnFace_valid this ctx img landmarks :
  assetReady this img -> validLandmarks landmarks ->
  drawGlassesOnFace this ctx landmarks =
    (Normal,
     set_lastGlassesPosition this
       (solve (lastGlassesPosition this) (rawOf img landmarks)),
     ctx ++ drawCalls img
              (solve (lastGlassesPosition this) (rawOf img landmarks))).
Proof.
  intros [Himg Hc] Hv. unfold drawGlassesOnFace.
  rewrite Himg, Hc. cbn [negb].
  rewrite !(validLandmarks_index landmarks) by (assumption || (cbn; tauto)).
  reflexivity.
Qed.

(** A frame with one of the six landmarks missing changes nothing. *)
Lemma drawGlassesOnFace_missing this ctx landmarks i :
  In i requiredIndices -> index landmarks i = None ->
  exists c, drawGlassesOnFace this ctx landmarks = (c, this, ctx).
Proof.
  intros Hi Hnone. unfold drawGlassesOnFace.
  destruct (glassesImg this) as [img |]; [| eexists; reflexivity].
  destruct (Image.complete img); cbn [negb]; [| eexists; reflexivity].
  cbn in Hi.
  repeat (destruct Hi as [<- | Hi]); try contradiction;
    rewrite Hnone;
    repeat match goal with
           | |- context [match index landmarks ?k with _ => _ end] =>
               destruct (index landmarks k)
           end;
    eexists; reflexivity.
Qed.

Lemma drawInstructions_clear ctx x y w h :
  drawInstructions (Some (ctx ++ [clearRect x y w h])) =
  drawInstructions (Some ctx).
Proof.
  unfold drawInstructions. rewrite filter_app. cbn. apply app_nil_r.
Qed.

(** * Where rounding decides

    The code evaluated in binary64 at concrete inputs. *)

Module Rounding.

Import PrimFloat.
#[local] Open Scope float_scope.




End Rounding.

(** * Frames, ticks and the loop *)

(** ** Missing landmarks *)

Lemma forEach_one_missing this ctx landmarks i :
  In i requiredIndices -> index landmarks i = None ->
  exists c, forEach this ctx [mkFace (Some landmarks)] = (c, this, ctx).
Proof.
  intros Hi Hnone. cbn [forEach onFace scaledMesh].
  destruct (168 <? List.length landmarks)%nat.
  - destruct (drawGlassesOnFace_missing this ctx landmarks i Hi Hnone)
      as [c ->].
    destruct c; eexists; reflexivity.
  - exists Normal. reflexivity.
Qed.

(** One tick that delivers a single face whose mesh lacks a needed
    landmark: the stored placement and the recorded [drawImage] calls are
    those from before the tick. *)
Lemma tick_missing this landmarks i handle :
  In i requiredIndices -> index landmarks i = None ->
  lastGlassesPosition (run this [oneFace landmarks handle]) =
    lastGlassesPosition this /\
  drawInstructions
    (WebcamUILib.ctx (webcamUI (run this [oneFace landmarks handle]))) =
    drawInstructions (WebcamUILib.ctx (webcamUI this)).
Proof.
  intros Hi Hnone. cbn [run oneFace fst snd]. unfold detectFaces.
  destruct (negb (WebcamUILib.isActive (webcamUI this)) || negb (model this));
    [split; reflexivity |].
  destruct (WebcamUILib.video (webcamUI this)); [| split; reflexivity].
  destruct (WebcamUILib.canvas (webcamUI this)) as [canvas |];
    [| split; reflexivity].
  unfold WebcamUILib.getCanvasContext.
  destruct (WebcamUILib.ctx (webcamUI this)) as [ctx |] eqn:Hctx;
    [| rewrite ?Hctx; split; reflexivity].
  set (ctx1 := ctx ++ [clearRect 0 0 _ _]).
  destruct (forEach_one_missing this ctx1 landmarks i Hi Hnone) as [c ->].
  assert (Hres : forall b : bool,
             lastGlassesPosition
               (if b
                then set_animationId
                       (set_webcamUI this
                          (WebcamUILib.set_ctx (webcamUI this) ctx1))
                       (Some handle)
                else set_webcamUI this
                       (WebcamUILib.set_ctx (webcamUI this) ctx1)) =
               lastGlassesPosition this /\
             drawInstructions
               (WebcamUILib.ctx
                  (webcamUI
                     (if b
                      then set_animationId
                             (set_webcamUI this
                                (WebcamUILib.set_ctx (webcamUI this) ctx1))
                             (Some handle)
                      else set_webcamUI this
                             (WebcamUILib.set_ctx (webcamUI this) ctx1)))) =
               drawInstructions (Some ctx)).
  { intros [|]; cbn; (split; [reflexivity |]);
      apply (drawInstructions_clear ctx). }
  apply Hres.
Qed.

(** C1.  When any one of the landmarks 133, 362, 33, 263, 159, 386 is
    absent, [drawGlassesOnFace] ends (by returning, or by the [TypeError]
    that the tick catches) with the application and the drawing context
    exactly as they were, and the tick that delivers that mesh leaves the
    stored placement and the recorded [drawImage] calls unchanged.  In
    particular this holds for an array of length 169 whose slot 159 is
    [undefined]. *)
Theorem missing_landmark_skips_frame :
  forall this ctx landmarks i handle,
    In i requiredIndices -> index landmarks i = None ->
    (exists c, drawGlassesOnFace this ctx landmarks = (c, this, ctx)) /\
    lastGlassesPosition (run this [oneFace landmarks handle]) =
      lastGlassesPosition this /\
    drawInstructions
      (WebcamUILib.ctx (webcamUI (run this [oneFace landmarks handle]))) =
      drawInstructions (WebcamUILib.ctx (webcamUI this)).
Proof.
  intros this ctx landmarks i handle Hi Hnone. split.
  - exact (drawGlassesOnFace_missing this ctx landmarks i Hi Hnone).
  - exact (tick_missing this landmarks i handle Hi Hnone).
Qed.

(** The length-169 array with slot 159 undefined, on a running application
    that already holds a placement. *)
Lemma missing_landmark_skips_frame_witness :
  List.length landmarks169 = 169%nat /\
  In 159%nat requiredIndices /\
  index landmarks169 159 = None /\
  lastGlassesPosition
    (run (runningApp (Placement.mk 120 195 100 40 0))
         [oneFace landmarks169 1]) =
    Placement.mk 120 195 100 40 0.
Proof.
  split; [reflexivity |].
  split; [cbn; tauto |].
  split; [reflexivity |].
  apply (missing_landmark_skips_frame
           (runningApp (Placement.mk 120 195 100 40 0)) [] landmarks169
           159%nat 1%nat).
  - cbn; tauto.
  - reflexivity.
Defined.

(** ** Valid frames *)

Lemma index_meshOf (slot : nat -> option Point) (n i : nat) :
  index (meshOf slot n) i = if (i <? n)%nat then slot i else None.
Proof.
  unfold index, meshOf.
  destruct (i <? n)%nat eqn:Hlt.
  - apply Nat.ltb_lt in Hlt.
    rewrite (nth_indep _ None (slot 0%nat))
      by (rewrite length_map, length_seq; exact Hlt).
    rewrite map_nth, seq_nth by exact Hlt. reflexivity.
  - apply Nat.ltb_ge in Hlt.
    apply nth_overflow. rewrite length_map, length_seq. exact Hlt.
Qed.

Lemma length_meshOf (slot : nat -> option Point) (n : nat) :
  List.length (meshOf slot n) = n.
Proof.
  unfold meshOf. rewrite length_map, length_seq. reflexivity.
Qed.

Lemma meshAround_valid (cx : R) : validLandmarks (meshAround cx).
Proof.
  intros i Hi. unfold meshAround. rewrite index_meshOf.
  cbn in Hi.
  repeat (destruct Hi as [<- | Hi]); try contradiction; cbn; discriminate.
Qed.

Lemma meshAround_left (cx : R) :
  leftEyeCenterOf (meshAround cx) = (cx - 20, 200).
Proof.
  unfold leftEyeCenterOf, pointAt, meshAround. rewrite !index_meshOf.
  cbn. unfold eyeCenter. cbn [fst snd]. f_equal; lra.
Qed.

Lemma meshAround_right (cx : R) :
  rightEyeCenterOf (meshAround cx) = (cx + 20, 200).
Proof.
  unfold rightEyeCenterOf, pointAt, meshAround. rewrite !index_meshOf.
  cbn. unfold eyeCenter. cbn [fst snd]. f_equal; lra.
Qed.

Lemma runningApp_ready (last : Placement.t) :
  assetReady (runningApp last) image200x80.
Proof. split; reflexivity. Qed.

Lemma runningApp_live (last : Placement.t) : loopLive (runningApp last).
Proof. repeat split; cbn; discriminate. Qed.

(** One tick that delivers a single face with a valid mesh, on a live loop
    with the asset ready: the stored placement is the solver's, one
    [drawImage] call with that geometry is recorded, and the loop stays
    live with the same asset. *)
Lemma tick_valid this img landmarks handle :
  loopLive this -> assetReady this img -> validLandmarks landmarks ->
  (168 < List.length landmarks)%nat ->
  let p := solve (lastGlassesPosition this) (rawOf img landmarks) in
  let this' := detectFaces this (Some [mkFace (Some landmarks)]) handle in
  lastGlassesPosition this' = p /\
  drawInstructions (WebcamUILib.ctx (webcamUI this')) =
    drawInstructions (WebcamUILib.ctx (webcamUI this)) ++
    [drawImage img (- Placement.width p / 2) (- Placement.height p / 2)
               (Placement.width p) (Placement.height p)] /\
  loopLive this' /\ assetReady this' img.
Proof.
  intros (Hrun & Hmodel & Hvideo & Hcanvas & Hctx) Hready Hvalid Hlen p this'.
  subst this'. unfold detectFaces, WebcamUILib.isActive,
    WebcamUILib.getCanvasContext.
  rewrite Hrun, Hmodel, Hvideo. cbn [negb orb].
  destruct (WebcamUILib.canvas (webcamUI this)) as [canvas |] eqn:Ecanvas;
    [| contradiction].
  destruct (WebcamUILib.ctx (webcamUI this)) as [ctx |] eqn:Ectx;
    [| contradiction].
  cbn [forEach onFace scaledMesh].
  apply Nat.ltb_lt in Hlen. rewrite Hlen.
  rewrite (drawGlassesOnFace_valid this _ img landmarks Hready Hvalid).
  fold p. cbn -[p drawCalls]. rewrite Hrun. cbn -[p drawCalls].
  split; [reflexivity |].
  split.
  { rewrite !filter_app. cbn. rewrite app_nil_r. reflexivity. }
  split.
  - repeat split; cbn; try assumption; try discriminate.
    rewrite Ecanvas. discriminate.
  - exact Hready.
Qed.

(** ** Bootstrap frames *)

(** With a stored [x] of [0] the blend of lines 321-335 runs on the raw
    placement in both places. *)
Lemma solve_zero (last raw : Placement.t) :
  Placement.x last = 0 -> solve last raw = smooth raw raw.
Proof.
  intros Hx. unfold solve, bootstrap.
  destruct (Req_dec_T (Placement.x last) 0) as [_ | Hne];
    [reflexivity | contradiction].
Qed.



(** ** The clamps *)

Lemma clamp_bounds (lo hi v : R) :
  lo <= hi -> lo <= Math.max lo (Math.min hi v) <= hi.
Proof.
  intros Hle. unfold Math.max, Math.min, Rmax, Rmin.
  destruct (Rle_dec hi v); destruct (Rle_dec lo _); lra.
Qed.

Lemma clamp_inside (lo hi v : R) :
  lo <= v <= hi -> Math.max lo (Math.min hi v) = v.
Proof.
  intros Hv. unfold Math.max, Math.min, Rmax, Rmin.
  destruct (Rle_dec hi v); destruct (Rle_dec lo _); lra.
Qed.

Lemma clamp_above (lo hi v : R) :
  lo <= hi -> hi < v -> Math.max lo (Math.min hi v) = hi.
Proof.
  intros Hle Hv. unfold Math.max, Math.min, Rmax, Rmin.
  destruct (Rle_dec hi v); destruct (Rle_dec lo _); lra.
Qed.

Lemma clamp_below (lo hi v : R) :
  lo <= hi -> v < lo -> Math.max lo (Math.min hi v) = lo.
Proof.
  intros Hle Hv. unfold Math.max, Math.min, Rmax, Rmin.
  destruct (Rle_dec hi v); destruct (Rle_dec lo _); lra.
Qed.

Lemma eyeDistance_nonneg (l r : Point) : 0 <= eyeDistance l r.
Proof. unfold eyeDistance, Math.sqrt. apply sqrt_pos. Qed.

(** Eye centres on one horizontal line, the right one further right. *)
Lemma eyeDistance_level (lx rx y0 : R) :
  lx <= rx -> eyeDistance (lx, y0) (rx, y0) = rx - lx.
Proof.
  intros Hle. unfold eyeDistance, Math.sqrt, Math.pow. cbn [fst snd].
  replace ((rx - lx) ^ 2 + (y0 - y0) ^ 2) with ((rx - lx) ^ 2) by ring.
  apply sqrt_pow2. lra.
Qed.

Lemma rawAngle_level (lx rx y0 : R) :
  lx < rx -> rawAngle (lx, y0) (rx, y0) = 0.
Proof.
  intros Hlt. unfold rawAngle, Math.atan2. cbn [fst snd].
  destruct (Rlt_dec 0 (rx - lx)) as [_ | Hn]; [| lra].
  replace ((y0 - y0) / (rx - lx)) with 0 by (unfold Rdiv; ring).
  apply atan_0.
Qed.

(** C6.  The width before smoothing lies between 1.8 and 2.5 times the
    eye distance, whatever the native size of the overlay image. *)
Theorem raw_width_bounds :
  forall img leftEyeCenter rightEyeCenter,
    1.8 * eyeDistance leftEyeCenter rightEyeCenter
      <= Placement.width (rawPlacement img leftEyeCenter rightEyeCenter)
      <= 2.5 * eyeDistance leftEyeCenter rightEyeCenter.
Proof.
  intros img l r. unfold rawPlacement. cbn [Placement.width].
  unfold finalWidth. cbv zeta.
  pose proof (eyeDistance_nonneg l r) as Hd.
  pose proof (clamp_bounds (eyeDistance l r * 1.8) (eyeDistance l r * 2.5)
                (candidateWidth img l r)) as Hc.
  lra.
Qed.

(** C7.  A raw angle above 0.1 is replaced by exactly 0.1, one below -0.1
    by exactly -0.1, and one inside the range is used as it is. *)
Theorem angle_clamp :
  forall img leftEyeCenter rightEyeCenter,
    (0.1 < rawAngle leftEyeCenter rightEyeCenter ->
       Placement.angle (rawPlacement img leftEyeCenter rightEyeCenter)
         = 0.1) /\
    (rawAngle leftEyeCenter rightEyeCenter < -0.1 ->
       Placement.angle (rawPlacement img leftEyeCenter rightEyeCenter)
         = -0.1) /\
    (-0.1 <= rawAngle leftEyeCenter rightEyeCenter <= 0.1 ->
       Placement.angle (rawPlacement img leftEyeCenter rightEyeCenter)
         = rawAngle leftEyeCenter rightEyeCenter).
Proof.
  intros img l r. unfold rawPlacement. cbn [Placement.angle].
  unfold faceAngle.
  repeat split; intros H.
  - apply clamp_above; lra.
  - apply clamp_below; lra.
  - apply clamp_inside; lra.
Qed.

Lemma rawAngle_low : rawAngle leftEye100 rightEyeLow = PI / 4.
Proof.
  unfold rawAngle, Math.atan2, leftEye100, rightEyeLow. cbn [fst snd].
  destruct (Rlt_dec 0 (140 - 100)) as [_ | Hn]; [| lra].
  replace ((240 - 200) / (140 - 100)) with 1 by lra.
  apply atan_1.
Qed.

Lemma rawAngle_high : rawAngle leftEye100 rightEyeHigh = - (PI / 4).
Proof.
  unfold rawAngle, Math.atan2, leftEye100, rightEyeHigh. cbn [fst snd].
  destruct (Rlt_dec 0 (140 - 100)) as [_ | Hn]; [| lra].
  replace ((160 - 200) / (140 - 100)) with (- (1)) by lra.
  rewrite atan_opp, atan_1. reflexivity.
Qed.

(** A 45 degree tilt either way is cut to 0.1; level eyes keep angle 0. *)
Lemma angle_clamp_witness :
  (0.1 < rawAngle leftEye100 rightEyeLow /\
   Placement.angle (rawPlacement image200x80 leftEye100 rightEyeLow) = 0.1) /\
  (rawAngle leftEye100 rightEyeHigh < -0.1 /\
   Placement.angle (rawPlacement image200x80 leftEye100 rightEyeHigh)
     = -0.1) /\
  (-0.1 <= rawAngle leftEye100 rightEye140 <= 0.1 /\
   Placement.angle (rawPlacement image200x80 leftEye100 rightEye140)
     = rawAngle leftEye100 rightEye140).
Proof.
  pose proof PI2_1 as Hpi.
  assert (Hlow : 0.1 < rawAngle leftEye100 rightEyeLow)
    by (rewrite rawAngle_low; lra).
  assert (Hhigh : rawAngle leftEye100 rightEyeHigh < -0.1)
    by (rewrite rawAngle_high; lra).
  assert (Hlevel : -0.1 <= rawAngle leftEye100 rightEye140 <= 0.1)
    by (unfold leftEye100, rightEye140; rewrite rawAngle_level; lra).
  split; [split; [exact Hlow |] | split; [split; [exact Hhigh |] |
                                          split; [exact Hlevel |]]].
  - exact (proj1 (angle_clamp image200x80 leftEye100 rightEyeLow) Hlow).
  - exact (proj1 (proj2 (angle_clamp image200x80 leftEye100 rightEyeHigh))
             Hhigh).
  - exact (proj2 (proj2 (angle_clamp image200x80 leftEye100 rightEye140))
             Hlevel).
Defined.

(** ** The worked example *)

Lemma clamp_example : Math.max (40 * 1.8) (Math.min (40 * 2.5) 100) = 100.
Proof. apply clamp_inside. lra. Qed.

(** C9.  Eye centres (100, 200) and (140, 200) with a 200 x 80 image: eye
    distance 40, raw angle 0, candidate width 100, clamp range [72, 100],
    width 100, height 40, raw centre (120, 195); from the sentinel the
    frame stores and draws {120, 195, 100, 40, 0}. *)
Theorem worked_example :
  eyeDistance leftEye100 rightEye140 = 40 /\
  rawAngle leftEye100 rightEye140 = 0 /\
  candidateWidth image200x80 leftEye100 rightEye140 = 100 /\
  eyeDistance leftEye100 rightEye140 * 1.8 = 72 /\
  eyeDistance leftEye100 rightEye140 * 2.5 = 100 /\
  finalWidth image200x80 leftEye100 rightEye140 = 100 /\
  finalHeight image200x80 leftEye100 rightEye140 = 40 /\
  rawPlacement image200x80 leftEye100 rightEye140
    = Placement.mk 120 195 100 40 0 /\
  solve sentinel (rawPlacement image200x80 leftEye100 rightEye140)
    = Placement.mk 120 195 100 40 0 /\
  leftEyeCenterOf (meshAround 120) = leftEye100 /\
  rightEyeCenterOf (meshAround 120) = rightEye140 /\
  lastGlassesPosition
    (run (runningApp sentinel) [oneFace (meshAround 120) 1])
    = Placement.mk 120 195 100 40 0 /\
  drawInstructions
    (WebcamUILib.ctx
       (webcamUI (run (runningApp sentinel) [oneFace (meshAround 120) 1])))
    = [drawImage image200x80 (- 100 / 2) (- 40 / 2) 100 40].
Proof.
  assert (Hd : eyeDistance leftEye100 rightEye140 = 40).
  { unfold leftEye100, rightEye140. rewrite eyeDistance_level; lra. }
  assert (Ha : rawAngle leftEye100 rightEye140 = 0).
  { unfold leftEye100, rightEye140. apply rawAngle_level. lra. }
  assert (Hc : candidateWidth image200x80 leftEye100 rightEye140 = 100).
  { unfold candidateWidth. cbv zeta. rewrite Hd. cbn. lra. }
  assert (Hw : finalWidth image200x80 leftEye100 rightEye140 = 100).
  { unfold finalWidth. cbv zeta. rewrite Hc, Hd. apply clamp_example. }
  assert (Hh : finalHeight image200x80 leftEye100 rightEye140 = 40).
  { unfold finalHeight. rewrite Hw. cbn. lra. }
  assert (Hf : faceAngle leftEye100 rightEye140 = 0).
  { unfold faceAngle. rewrite Ha. apply clamp_inside. lra. }
  assert (Hraw : rawPlacement image200x80 leftEye100 rightEye140
                 = Placement.mk 120 195 100 40 0).
  { unfold rawPlacement. cbv zeta. rewrite Hw, Hh, Hf.
    unfold leftEye100, rightEye140. cbn [fst snd].
    apply placement_eq; cbn; lra. }
  assert (Hl : leftEyeCenterOf (meshAround 120) = leftEye100).
  { rewrite meshAround_left. unfold leftEye100. f_equal. lra. }
  assert (Hr : rightEyeCenterOf (meshAround 120) = rightEye140).
  { rewrite meshAround_right. unfold rightEye140. f_equal. lra. }
  assert (Hmesh : (168 < List.length (meshAround 120))%nat).
  { unfold meshAround. rewrite length_meshOf. lia. }
  pose proof (tick_valid (runningApp sentinel) image200x80 (meshAround 120) 1
                (runningApp_live sentinel) (runningApp_ready sentinel)
                (meshAround_valid 120) Hmesh) as Htick.
  cbv zeta in Htick. destruct Htick as (Hlast & Hdraw & _ & _).
  assert (Hsolve : solve (lastGlassesPosition (runningApp sentinel))
                     (rawOf image200x80 (meshAround 120))
                   = Placement.mk 120 195 100 40 0).
  { unfold rawOf. rewrite Hl, Hr, Hraw. apply solve_bootstrap. reflexivity. }
  rewrite Hsolve in Hlast, Hdraw.
  repeat split; try assumption; try lra.
  rewrite Hraw. apply solve_bootstrap. reflexivity.
Qed.

Lemma meshAround_length (cx : R) : (168 < List.length (meshAround cx))%nat.
Proof. unfold meshAround. rewrite length_meshOf. lia. Qed.

Lemma rawOf_meshAround_width200 (name : string) (h : Z) (cx : R) :
  rawOf (Image.mk name true 200 h) (meshAround cx) =
  Placement.mk cx 195 100 (100 * (IZR h / 200)) 0.
Proof.
  unfold rawOf. rewrite meshAround_left, meshAround_right.
  assert (Hd : eyeDistance (cx - 20, 200) (cx + 20, 200) = 40)
    by (rewrite eyeDistance_level; lra).
  assert (Ha : rawAngle (cx - 20, 200) (cx + 20, 200) = 0)
    by (apply rawAngle_level; lra).
  unfold rawPlacement, finalHeight, finalWidth, candidateWidth, faceAngle.
  cbv zeta. rewrite Hd, Ha. cbn [fst snd Image.width Image.height].
  replace (200 * (40 / 80)) with 100 by lra.
  rewrite clamp_example, (clamp_inside (-0.1) 0.1 0) by lra.
  apply placement_eq; cbn; lra.
Qed.

Lemma rawOf_meshAround (cx : R) :
  rawOf image200x80 (meshAround cx) = Placement.mk cx 195 100 40 0.
Proof.
  unfold image200x80. rewrite rawOf_meshAround_width200.
  apply placement_eq; cbn; lra.
Qed.

(** C10.  The bootstrap test looks at the stored [x] only.  On a live loop
    with the asset ready, a tick with a valid mesh whose stored placement
    has [x = 0] overwrites it with the raw placement of that frame before
    the blend, whatever the stored [y], width, height and angle were: what
    is stored is the blend of the raw placement with itself.  With any
    other stored [x] the tick stores the blend of the stored placement
    and the raw one. *)
Theorem zero_x_restarts_smoothing :
  forall this img landmarks handle,
    loopLive this -> assetReady this img -> validLandmarks landmarks ->
    (168 < List.length landmarks)%nat ->
    (forall y0 w0 h0 a0,
        lastGlassesPosition this = Placement.mk 0 y0 w0 h0 a0 ->
        lastGlassesPosition (run this [oneFace landmarks handle])
          = smooth (rawOf img landmarks) (rawOf img landmarks)) /\
    (Placement.x (lastGlassesPosition this) <> 0 ->
        lastGlassesPosition (run this [oneFace landmarks handle])
          = smooth (lastGlassesPosition this) (rawOf img landmarks)).
Proof.
  intros this img landmarks handle Hlive Hready Hvalid Hlen.
  destruct (tick_valid this img landmarks handle Hlive Hready Hvalid Hlen)
    as (Hlast & _).
  cbn [run oneFace]. split.
  - intros y0 w0 h0 a0 Hzero. rewrite Hlast. apply solve_zero.
    rewrite Hzero. reflexivity.
  - intros Hx. rewrite Hlast. apply solve_smooth. exact Hx.
Qed.

(** A first frame centred on [x = 0] leaves a genuine placement whose [x]
    is [0]; the next frame, centred on [x = 120], does not use it. *)
Lemma zero_x_restarts_smoothing_witness :
  lastGlassesPosition (run (runningApp sentinel) [oneFace (meshAround 0) 1])
    = Placement.mk 0 195 100 40 0 /\
  lastGlassesPosition
    (run (run (runningApp sentinel) [oneFace (meshAround 0) 1])
         [oneFace (meshAround 120) 2])
    = smooth (rawOf image200x80 (meshAround 120))
             (rawOf image200x80 (meshAround 120)).
Proof.
  destruct (tick_valid (runningApp sentinel) image200x80 (meshAround 0) 1
              (runningApp_live sentinel) (runningApp_ready sentinel)
              (meshAround_valid 0) (meshAround_length 0))
    as (Hlast & _ & Hlive & Hready).
  rewrite rawOf_meshAround in Hlast.
  rewrite solve_bootstrap in Hlast by reflexivity.
  split; [exact Hlast |].
  exact (proj1 (zero_x_restarts_smoothing _ image200x80 (meshAround 120) 2
                  Hlive Hready (meshAround_valid 120) (meshAround_length 120))
               195 100 40 0 Hlast).
Defined.

(** ** The nose landmarks *)

Lemma drawGlassesOnFace_ext this ctx l1 l2 :
  (forall i, In i requiredIndices -> index l1 i = index l2 i) ->
  drawGlassesOnFace this ctx l1 = drawGlassesOnFace this ctx l2.
Proof.
  intros Hsame. unfold drawGlassesOnFace.
  rewrite !(Hsame _) by (cbn; tauto). reflexivity.
Qed.

(** C8.  Two meshes of the same length that agree everywhere except at
    the nose landmarks 1 and 168 give the same result of
    [drawGlassesOnFace] (completion, application and drawing context) and
    the same state after the tick. *)
Theorem nose_landmarks_unused :
  forall this ctx l1 l2 handle,
    (forall i, i <> 1%nat -> i <> 168%nat -> index l1 i = index l2 i) ->
    List.length l1 = List.length l2 ->
    drawGlassesOnFace this ctx l1 = drawGlassesOnFace this ctx l2 /\
    run this [oneFace l1 handle] = run this [oneFace l2 handle].
Proof.
  intros this ctx l1 l2 handle Hsame Hlen.
  assert (Hreq : forall i, In i requiredIndices -> index l1 i = index l2 i).
  { intros i Hi. apply Hsame; intros ->; cbn in Hi;
      repeat (destruct Hi as [Hi | Hi]; [discriminate |]); exact Hi. }
  split.
  - apply drawGlassesOnFace_ext. exact Hreq.
  - cbn [run oneFace]. unfold detectFaces. cbn [forEach onFace scaledMesh].
    rewrite Hlen.
    destruct (WebcamUILib.canvas (webcamUI this)) as [canvas |];
      [| reflexivity].
    destruct (WebcamUILib.getCanvasContext (webcamUI this)) as [c |];
      [| reflexivity].
    destruct (168 <? List.length l2)%nat; [| reflexivity].
    rewrite (drawGlassesOnFace_ext this _ l1 l2 Hreq). reflexivity.
Qed.

Lemma meshWithNose_agree (t1 b1 t2 b2 : Point) (i : nat) :
  i <> 1%nat -> i <> 168%nat ->
  index (meshWithNose t1 b1) i = index (meshWithNose t2 b2) i.
Proof.
  intros H1 H168. unfold meshWithNose. rewrite !index_meshOf.
  apply Nat.eqb_neq in H1, H168. rewrite H1, H168. reflexivity.
Qed.

(** Two full meshes with different nose tips and bridges. *)
Lemma nose_landmarks_unused_witness :
  index (meshWithNose (120, 230) (120, 205)) 1
    <> index (meshWithNose (300, 10) (7, 400)) 1 /\
  drawGlassesOnFace (runningApp sentinel) []
                    (meshWithNose (120, 230) (120, 205)) =
  drawGlassesOnFace (runningApp sentinel) []
                    (meshWithNose (300, 10) (7, 400)) /\
  run (runningApp sentinel) [oneFace (meshWithNose (120, 230) (120, 205)) 1] =
  run (runningApp sentinel) [oneFace (meshWithNose (300, 10) (7, 400)) 1].
Proof.
  split.
  - unfold meshWithNose. rewrite !index_meshOf. cbn.
    intros H. injection H as H _. lra.
  - apply (nose_landmarks_unused (runningApp sentinel) []
             (meshWithNose (120, 230) (120, 205))
             (meshWithNose (300, 10) (7, 400)) 1).
    + intros i. apply meshWithNose_agree.
    + unfold meshWithNose. rewrite !length_meshOf. reflexivity.
Defined.

(** ** Style changes, stopping and starting *)

Lemma stopFaceDetection_fields this :
  lastGlassesPosition (stopFaceDetection this) = lastGlassesPosition this /\
  webcamUI (stopFaceDetection this) = webcamUI this /\
  model (stopFaceDetection this) = model this /\
  glassesImg (stopFaceDetection this) = glassesImg this.
Proof.
  unfold stopFaceDetection.
  destruct (animationId this) as [id |]; [destruct (Nat.eqb id 0) |];
    repeat split.
Qed.

Lemma startFaceDetection_is_a_tick this estimate handle :
  startFaceDetection this estimate handle = detectFaces this estimate handle.
Proof.
  unfold startFaceDetection, detectFaces.
  destruct (negb (WebcamUILib.isActive (webcamUI this)) || negb (model this));
    reflexivity.
Qed.

Lemma tick_without_faces this handle :
  lastGlassesPosition (detectFaces this (Some []) handle) =
    lastGlassesPosition this /\
  lastGlassesPosition (detectFaces this None handle) =
    lastGlassesPosition this.
Proof.
  unfold detectFaces.
  destruct (negb (WebcamUILib.isActive (webcamUI this)) || negb (model this));
    [split; reflexivity |].
  destruct (WebcamUILib.video (webcamUI this)); [| split; reflexivity].
  destruct (WebcamUILib.canvas (webcamUI this)); [| split; reflexivity].
  destruct (WebcamUILib.getCanvasContext (webcamUI this));
    [| split; reflexivity].
  cbn [forEach]. split.
  - match goal with |- context [if ?b then _ else _] => destruct b end;
      reflexivity.
  - match goal with |- context [if ?b then _ else _] => destruct b end;
      reflexivity.
Qed.

(** C3, as stated, fails: stopping and restarting the loop on an
    application that holds the placement {20, 195, 100, 40, 0} does not
    put the sentinel back, and the first frame after the restart is
    blended with that old placement ([x] = 20 * 0.6 + 120 * 0.4 = 60)
    instead of being stored raw ([x] = 120). *)
Lemma stop_start_keeps_placement :
  lastGlassesPosition
    (stopFaceDetection (loopingApp (Placement.mk 20 195 100 40 0)))
    <> sentinel /\
  lastGlassesPosition
    (startFaceDetection
       (stopFaceDetection (loopingApp (Placement.mk 20 195 100 40 0)))
       (Some []) 8)
    <> sentinel /\
  lastGlassesPosition
    (startFaceDetection
       (stopFaceDetection (loopingApp (Placement.mk 20 195 100 40 0)))
       (Some [mkFace (Some (meshAround 120))]) 8)
    = Placement.mk 60 195 100 40 0.
Proof.
  assert (Hne : Placement.mk 20 195 100 40 0 <> sentinel).
  { unfold sentinel. intros H. injection H as Hx _ _ _. lra. }
  split; [exact Hne |].
  split; [exact Hne |].
  rewrite startFaceDetection_is_a_tick.
  change (stopFaceDetection (loopingApp (Placement.mk 20 195 100 40 0)))
    with (runningApp (Placement.mk 20 195 100 40 0)).
  destruct (tick_valid (runningApp (Placement.mk 20 195 100 40 0))
              image200x80 (meshAround 120) 8
              (runningApp_live _) (runningApp_ready _)
              (meshAround_valid 120) (meshAround_length 120))
    as (Hlast & _).
  rewrite Hlast, rawOf_meshAround, solve_smooth by (cbn; lra).
  apply placement_eq; cbn; lra.
Qed.

Lemma drawGlassesOnFace_set_animationId this a ctx landmarks :
  drawGlassesOnFace (set_animationId this a) ctx landmarks =
  let '(c, this', ctx') := drawGlassesOnFace this ctx landmarks in
  (c, set_animationId this' a, ctx').
Proof.
  unfold drawGlassesOnFace. cbn [set_animationId glassesImg
    lastGlassesPosition].
  destruct (glassesImg this) as [img |]; [| reflexivity].
  destruct (negb (Image.complete img)); [reflexivity |].
  repeat match goal with
         | |- context [match index landmarks ?k with _ => _ end] =>
             destruct (index landmarks k)
         end; reflexivity.
Qed.

Lemma forEach_set_animationId faces : forall this a ctx,
  forEach (set_animationId this a) ctx faces =
  let '(c, this', ctx') := forEach this ctx faces in
  (c, set_animationId this' a, ctx').
Proof.
  induction faces as [| face rest IH]; intros this a ctx; [reflexivity |].
  cbn [forEach].
  assert (Hface : onFace (set_animationId this a) ctx face =
                  let '(c, this', ctx') := onFace this ctx face in
                  (c, set_animationId this' a, ctx')).
  { unfold onFace. destruct (scaledMesh face) as [mesh |]; [| reflexivity].
    destruct (168 <? List.length mesh)%nat; [| reflexivity].
    apply drawGlassesOnFace_set_animationId. }
  rewrite Hface.
  destruct (onFace this ctx face) as [[c1 this1] ctx1].
  destruct c1; [apply IH | reflexivity].
Qed.

Lemma detectFaces_after_set_animationId this a estimate handle :
  lastGlassesPosition (detectFaces (set_animationId this a) estimate handle)
  = lastGlassesPosition (detectFaces this estimate handle).
Proof.
  unfold detectFaces. cbn [set_animationId webcamUI model].
  destruct (negb (WebcamUILib.isActive (webcamUI this)) || negb (model this));
    [reflexivity |].
  destruct (WebcamUILib.video (webcamUI this)); [| reflexivity].
  destruct (WebcamUILib.canvas (webcamUI this)) as [canvas |];
    [| reflexivity].
  destruct (WebcamUILib.getCanvasContext (webcamUI this)) as [ctx |];
    [| reflexivity].
  destruct estimate as [faces |].
  - rewrite forEach_set_animationId.
    destruct (forEach this _ faces) as [[c this'] ctx'].
    cbn [set_webcamUI set_animationId webcamUI].
    match goal with
    | |- context [WebcamUILib.isActive ?u] =>
        destruct (WebcamUILib.isActive u)
    end; reflexivity.
  - cbn [set_animationId webcamUI].
    destruct (WebcamUILib.isActive (webcamUI this)); reflexivity.
Qed.

(** C3, amended.  [selectGlasses] and [stopFaceDetection] leave the stored
    placement as it is, and [startFaceDetection] does nothing but run a
    tick of [detectFaces].  So the stored placement after
    [stopFaceDetection] followed by [startFaceDetection] is the one the
    same tick would have stored without the stop and the start; when no
    face is delivered, or the detector fails, it is the one stored
    before. *)
Theorem placement_survives_style_stop_start :
  forall this element estimate handle,
    lastGlassesPosition (selectGlasses this element)
      = lastGlassesPosition this /\
    lastGlassesPosition (stopFaceDetection this)
      = lastGlassesPosition this /\
    startFaceDetection this estimate handle
      = detectFaces this estimate handle /\
    lastGlassesPosition
      (startFaceDetection (stopFaceDetection this) estimate handle)
      = lastGlassesPosition (detectFaces this estimate handle) /\
    lastGlassesPosition
      (startFaceDetection (stopFaceDetection this) (Some []) handle)
      = lastGlassesPosition this /\
    lastGlassesPosition
      (startFaceDetection (stopFaceDetection this) None handle)
      = lastGlassesPosition this.
Proof.
  intros this element estimate handle.
  destruct (stopFaceDetection_fields this) as (Hstop & _).
  destruct (tick_without_faces (stopFaceDetection this) handle)
    as (Hempty & Hfail).
  repeat split.
  - exact Hstop.
  - apply startFaceDetection_is_a_tick.
  - rewrite startFaceDetection_is_a_tick. unfold stopFaceDetection.
    destruct (animationId this) as [id |]; [| reflexivity].
    destruct (Nat.eqb id 0); [reflexivity |].
    apply detectFaces_after_set_animationId.
  - rewrite startFaceDetection_is_a_tick, Hempty. exact Hstop.
  - rewrite startFaceDetection_is_a_tick, Hfail. exact Hstop.
Qed.

(** ** Aspect ratio *)

(** A call of [drawGlassesOnFace] either changes nothing or stores and
    draws the solver's placement for the raw placement of some pair of eye
    centres. *)
Lemma drawGlassesOnFace_cases this ctx landmarks :
  (exists c, drawGlassesOnFace this ctx landmarks = (c, this, ctx)) \/
  (exists img l r,
      assetReady this img /\
      drawGlassesOnFace this ctx landmarks =
        (Normal,
         set_lastGlassesPosition this
           (solve (lastGlassesPosition this) (rawPlacement img l r)),
         ctx ++ drawCalls img
                  (solve (lastGlassesPosition this) (rawPlacement img l r)))).
Proof.
  unfold drawGlassesOnFace, assetReady.
  destruct (glassesImg this) as [img |]; [| left; eexists; reflexivity].
  destruct (Image.complete img) eqn:Hc; cbn [negb];
    [| left; eexists; reflexivity].
  destruct (index landmarks 133); [| left; eexists; reflexivity].
  destruct (index landmarks 362); [| left; eexists; reflexivity].
  destruct (index landmarks 33); [| left; eexists; reflexivity].
  destruct (index landmarks 263); [| left; eexists; reflexivity].
  destruct (index landmarks 159); [| left; eexists; reflexivity].
  destruct (index landmarks 386); [| left; eexists; reflexivity].
  right. do 3 eexists. split; [split; [reflexivity | exact Hc] |].
  reflexivity.
Qed.



(** ** Smoothing over a constant stream *)

Lemma run_app this ticks1 ticks2 :
  run this (ticks1 ++ ticks2) = run (run this ticks1) ticks2.
Proof.
  revert this. induction ticks1 as [| [estimate handle] rest IH]; intros this.
  - reflexivity.
  - cbn [app run]. apply IH.
Qed.

Lemma run_constantStream_S this landmarks handle n :
  run this (constantStream landmarks handle (S n)) =
  detectFaces (run this (constantStream landmarks handle n))
              (Some [mkFace (Some landmarks)]) handle.
Proof.
  unfold constantStream. cbn [repeat]. rewrite repeat_cons, run_app.
  reflexivity.
Qed.

(** Along a constant stream of valid frames the loop stays live, the asset
    stays ready and each tick applies the solver once. *)
Lemma constantStream_step this img landmarks handle :
  loopLive this -> assetReady this img -> validLandmarks landmarks ->
  (168 < List.length landmarks)%nat ->
  forall n,
    loopLive (run this (constantStream landmarks handle n)) /\
    assetReady (run this (constantStream landmarks handle n)) img /\
    lastGlassesPosition (run this (constantStream landmarks handle (S n))) =
      solve (lastGlassesPosition
               (run this (constantStream landmarks handle n)))
            (rawOf img landmarks).
Proof.
  intros Hlive Hready Hvalid Hlen.
  assert (Hinv : forall n,
             loopLive (run this (constantStream landmarks handle n)) /\
             assetReady (run this (constantStream landmarks handle n)) img).
  { induction n as [| n [IHlive IHready]].
    - split; assumption.
    - rewrite run_constantStream_S.
      destruct (tick_valid _ img landmarks handle IHlive IHready Hvalid Hlen)
        as (_ & _ & Hl & Hr).
      split; assumption. }
  intros n. destruct (Hinv n) as [Hl Hr].
  split; [exact Hl |]. split; [exact Hr |].
  rewrite run_constantStream_S.
  exact (proj1 (tick_valid _ img landmarks handle Hl Hr Hvalid Hlen)).
Qed.

Lemma runningApp_first_tick (p : Placement.t) (cx : R) (handle : nat) :
  lastGlassesPosition
    (run (runningApp p) (constantStream (meshAround cx) handle 1)) =
  solve p (Placement.mk cx 195 100 40 0).
Proof.
  destruct (constantStream_step (runningApp p) image200x80 (meshAround cx)
              handle (runningApp_live p) (runningApp_ready p)
              (meshAround_valid cx) (meshAround_length cx) 0%nat)
    as (_ & _ & ->).
  rewrite rawOf_meshAround. reflexivity.
Qed.



(** The hypothesis on the stored [x] is needed: from [x = -80] one frame
    centred on [x = 120] stores [x = 0], so the next one is a bootstrap
    frame and stores the raw placement. *)
Lemma blend_reaching_zero_restarts :
  lastGlassesPosition
    (run (runningApp (Placement.mk (-80) 195 100 40 0))
         (constantStream (meshAround 120) 1 1))
    = Placement.mk 0 195 100 40 0 /\
  lastGlassesPosition
    (run (runningApp (Placement.mk (-80) 195 100 40 0))
         (constantStream (meshAround 120) 1 2))
    = Placement.mk 120 195 100 40 0.
Proof.
  assert (H1 : lastGlassesPosition
                 (run (runningApp (Placement.mk (-80) 195 100 40 0))
                      (constantStream (meshAround 120) 1 1))
               = Placement.mk 0 195 100 40 0).
  { rewrite runningApp_first_tick, solve_smooth by (cbn; lra).
    apply placement_eq; cbn; lra. }
  split; [exact H1 |].
  destruct (constantStream_step
              (runningApp (Placement.mk (-80) 195 100 40 0)) image200x80
              (meshAround 120) 1 (runningApp_live _) (runningApp_ready _)
              (meshAround_valid 120) (meshAround_length 120) 1%nat)
    as (_ & _ & ->).
  rewrite H1, rawOf_meshAround. apply solve_bootstrap. reflexivity.
Qed.

(** * Further properties of the code *)

(** ** Geometry of the raw placement *)

Lemma rawAngle_swapped_down (l r : Point) :
  fst r < fst l -> snd l <= snd r -> PI / 2 < rawAngle l r.
Proof.
  intros Hx Hy. unfold rawAngle, Math.atan2.
  destruct (Rlt_dec 0 (fst r - fst l)) as [Hp | _]; [lra |].
  destruct (Rlt_dec (fst r - fst l) 0) as [_ | Hn]; [| lra].
  destruct (Rle_dec 0 (snd r - snd l)) as [_ | Hn]; [| lra].
  pose proof (atan_bound ((snd r - snd l) / (fst r - fst l))). lra.
Qed.

Lemma rawAngle_swapped_up (l r : Point) :
  fst r < fst l -> snd r < snd l -> rawAngle l r < - (PI / 2).
Proof.
  intros Hx Hy. unfold rawAngle, Math.atan2.
  destruct (Rlt_dec 0 (fst r - fst l)) as [Hp | _]; [lra |].
  destruct (Rlt_dec (fst r - fst l) 0) as [_ | Hn]; [| lra].
  destruct (Rle_dec 0 (snd r - snd l)) as [Hp | _]; [lra |].
  pose proof (atan_bound ((snd r - snd l) / (fst r - fst l))). lra.
Qed.

(** X3.  When the right eye centre lies to the left of the left one, the
    angle before smoothing is never the measured one: it is exactly 0.1
    when the right eye centre is level with or below the left one on the
    screen, and exactly -0.1 when it is above. *)
Theorem swapped_eyes_saturate_angle :
  forall img leftEyeCenter rightEyeCenter,
    fst rightEyeCenter < fst leftEyeCenter ->
    (snd leftEyeCenter <= snd rightEyeCenter ->
       Placement.angle (rawPlacement img leftEyeCenter rightEyeCenter) = 0.1)
    /\
    (snd rightEyeCenter < snd leftEyeCenter ->
       Placement.angle (rawPlacement img leftEyeCenter rightEyeCenter)
         = -0.1).
Proof.
  intros img l r Hx. unfold rawPlacement. cbn [Placement.angle].
  unfold faceAngle. pose proof PI2_1 as Hpi. split; intros Hy.
  - pose proof (rawAngle_swapped_down l r Hx Hy). apply clamp_above; lra.
  - pose proof (rawAngle_swapped_up l r Hx Hy). apply clamp_below; lra.
Qed.

(** One unit of height of the right eye flips the angle from 0.1 to
    -0.1. *)
Lemma swapped_eyes_saturate_angle_witness :
  Placement.angle (rawPlacement image200x80 leftEye100 rightEyeSwapped)
    = 0.1 /\
  Placement.angle (rawPlacement image200x80 leftEye100 rightEyeSwappedUp)
    = -0.1.
Proof.
  split.
  - apply (proj1 (swapped_eyes_saturate_angle image200x80 leftEye100
                    rightEyeSwapped ltac:(cbn; lra))).
    cbn. lra.
  - apply (proj2 (swapped_eyes_saturate_angle image200x80 leftEye100
                    rightEyeSwappedUp ltac:(cbn; lra))).
    cbn. lra.
Defined.

(** X4.  With an overlay image of native width above 0, two eye centres
    at the same point give a raw placement of width 0, height 0 and
    angle 0, centred five units above that point. *)
Theorem coincident_eyes_collapse :
  forall img p,
    (0 < Image.width img)%Z ->
    rawPlacement img p p = Placement.mk (fst p) (snd p - 5) 0 0 0.
Proof.
  intros img p _.
  assert (Hd : eyeDistance p p = 0).
  { unfold eyeDistance, Math.sqrt, Math.pow.
    replace ((fst p - fst p) ^ 2 + (snd p - snd p) ^ 2) with 0 by ring.
    apply sqrt_0. }
  assert (Ha : rawAngle p p = 0).
  { unfold rawAngle, Math.atan2.
    destruct (Rlt_dec 0 (fst p - fst p)); [lra |].
    destruct (Rlt_dec (fst p - fst p) 0); [lra |].
    destruct (Rlt_dec 0 (snd p - snd p)); [lra |].
    destruct (Rlt_dec (snd p - snd p) 0); [lra | reflexivity]. }
  unfold rawPlacement, finalHeight, finalWidth, candidateWidth, faceAngle.
  cbv zeta. rewrite Hd, Ha.
  rewrite (clamp_inside (-0.1) 0.1 0) by lra.
  replace (Math.max (0 * 1.8)
             (Math.min (0 * 2.5) (IZR (Image.width img) * (0 / 80))))
    with 0.
  - apply placement_eq; cbn; lra.
  - replace (IZR (Image.width img) * (0 / 80)) with 0 by lra.
    symmetry. apply clamp_inside. lra.
Qed.

(** Both eye centres at (100, 200), with the 200 x 80 image. *)
Lemma coincident_eyes_collapse_witness :
  rawPlacement image200x80 leftEye100 leftEye100 =
  Placement.mk (fst leftEye100) (snd leftEye100 - 5) 0 0 0.
Proof.
  apply (coincident_eyes_collapse image200x80 leftEye100).
  reflexivity.
Defined.

(** ** Invariants of the tick loop *)

Section TickInvariant.

  Variable P : Placement.t -> Prop.
  Variable Q : CanvasOp -> Prop.

  Hypothesis solve_keeps :
    forall img last l r, P last -> P (solve last (rawPlacement img l r)).
  Hypothesis drawCalls_keep :
    forall img p, P p -> Forall Q (drawCalls img p).
  Hypothesis clearRect_keeps : forall x y w h, Q (clearRect x y w h).





End TickInvariant.





(** ** Ticks that draw nothing *)

Lemma drawGlassesOnFace_assetMissing this ctx landmarks :
  assetMissing this -> drawGlassesOnFace this ctx landmarks = (Normal, this, ctx).
Proof.
  unfold assetMissing, drawGlassesOnFace.
  destruct (glassesImg this) as [img |]; [| reflexivity].
  intros ->. reflexivity.
Qed.

Lemma forEach_assetMissing faces : forall this ctx,
  assetMissing this -> forEach this ctx faces = (Normal, this, ctx).
Proof.
  induction faces as [| face rest IH]; intros this ctx Hm; [reflexivity |].
  cbn [forEach]. unfold onFace.
  destruct (scaledMesh face) as [mesh |].
  - destruct (168 <? List.length mesh)%nat.
    + rewrite (drawGlassesOnFace_assetMissing this ctx mesh Hm).
      apply IH. exact Hm.
    + apply IH. exact Hm.
  - apply IH. exact Hm.
Qed.

Lemma detectFaces_assetMissing this estimate handle :
  assetMissing this ->
  assetMissing (detectFaces this estimate handle) /\
  lastGlassesPosition (detectFaces this estimate handle) =
    lastGlassesPosition this /\
  drawInstructions
    (WebcamUILib.ctx (webcamUI (detectFaces this estimate handle))) =
    drawInstructions (WebcamUILib.ctx (webcamUI this)).
Proof.
  intros Hm. unfold detectFaces.
  destruct (negb (WebcamUILib.isActive (webcamUI this)) || negb (model this));
    [tauto |].
  destruct (WebcamUILib.video (webcamUI this)); [| tauto].
  destruct (WebcamUILib.canvas (webcamUI this)) as [canvas |]; [| tauto].
  unfold WebcamUILib.getCanvasContext.
  destruct (WebcamUILib.ctx (webcamUI this)) as [ctx |] eqn:Ectx;
    [| rewrite ?Ectx; tauto].
  destruct estimate as [faces |].
  - rewrite (forEach_assetMissing faces this _ Hm).
    match goal with |- context [if ?b then _ else _] => destruct b end;
      cbn -[drawInstructions]; (split; [exact Hm |]);
      (split; [reflexivity |]); apply drawInstructions_clear.
  - match goal with |- context [if ?b then _ else _] => destruct b end;
      cbn -[drawInstructions]; rewrite ?Ectx; tauto.
Qed.

(** X7.  While there is no overlay image, or it is not decoded yet, ticks
    neither draw the overlay nor touch the stored placement, whatever
    faces the detector delivers. *)
Theorem no_overlay_until_image_is_decoded :
  forall this ticks,
    assetMissing this ->
    lastGlassesPosition (run this ticks) = lastGlassesPosition this /\
    drawInstructions (WebcamUILib.ctx (webcamUI (run this ticks))) =
      drawInstructions (WebcamUILib.ctx (webcamUI this)).
Proof.
  intros this ticks. revert this.
  induction ticks as [| [estimate handle] rest IH]; intros this Hm.
  - split; reflexivity.
  - cbn [run].
    destruct (detectFaces_assetMissing this estimate handle Hm)
      as (Hm' & Hlast & Hdraw).
    destruct (IH _ Hm') as [IHlast IHdraw].
    rewrite IHlast, IHdraw. split; assumption.
Qed.

(** A style has just been chosen and its image has not arrived. *)
Lemma no_overlay_until_image_is_decoded_witness :
  lastGlassesPosition
    (run (selectGlasses (runningApp (Placement.mk 20 195 100 40 0))
                        otherStyle)
         [oneFace (meshAround 120) 1; oneFace (meshAround 130) 2])
    = Placement.mk 20 195 100 40 0.
Proof.
  apply (no_overlay_until_image_is_decoded
           (selectGlasses (runningApp (Placement.mk 20 195 100 40 0))
                          otherStyle)).
  reflexivity.
Defined.

Lemma detectFaces_dead this estimate handle :
  loopDead this -> detectFaces this estimate handle = this.
Proof.
  unfold loopDead, detectFaces, WebcamUILib.isActive,
    WebcamUILib.getCanvasContext.
  intros [H | [H | [H | [H | H]]]].
  - rewrite H. reflexivity.
  - rewrite H. destruct (WebcamUILib.isRunning (webcamUI this)); reflexivity.
  - destruct (negb (WebcamUILib.isRunning (webcamUI this))
              || negb (model this)); [reflexivity |].
    rewrite H. reflexivity.
  - destruct (negb (WebcamUILib.isRunning (webcamUI this))
              || negb (model this)); [reflexivity |].
    rewrite H. destruct (WebcamUILib.video (webcamUI this)); reflexivity.
  - destruct (negb (WebcamUILib.isRunning (webcamUI this))
              || negb (model this)); [reflexivity |].
    rewrite H. destruct (WebcamUILib.video (webcamUI this));
      [destruct (WebcamUILib.canvas (webcamUI this)) |]; reflexivity.
Qed.

Lemma run_dead ticks this : loopDead this -> run this ticks = this.
Proof.
  intros Hd. induction ticks as [| [estimate handle] rest IH];
    [reflexivity |].
  cbn [run]. rewrite (detectFaces_dead this estimate handle Hd). exact IH.
Qed.

(** X8.  When the camera is not running, the detector is not loaded, or
    the video element, the canvas or its context is missing, ticks change
    nothing at all: nothing is drawn, nothing is stored and no further
    frame is requested. *)
Theorem dead_loop_stays_dead :
  forall this ticks, loopDead this -> run this ticks = this.
Proof.
  intros this ticks Hd. exact (run_dead ticks this Hd).
Qed.

(** The instance right after construction: no detector yet. *)
Lemma dead_loop_stays_dead_witness :
  run (constructor runningUI)
      [oneFace (meshAround 120) 1; oneFace (meshAround 130) 2]
  = constructor runningUI.
Proof.
  apply (dead_loop_stays_dead (constructor runningUI)).
  right; left. reflexivity.
Defined.

(** ** Several faces in one tick *)

Lemma set_lastGlassesPosition_same this :
  set_lastGlassesPosition this (lastGlassesPosition this) = this.
Proof. destruct this. reflexivity. Qed.

(** [drawGlassesOnFace] and [forEach] write no field of the application
    other than [lastGlassesPosition]. *)
Lemma drawGlassesOnFace_frame this ctx landmarks c this' ctx' :
  drawGlassesOnFace this ctx landmarks = (c, this', ctx') ->
  exists p, this' = set_lastGlassesPosition this p.
Proof.
  intros Hcall.
  destruct (drawGlassesOnFace_cases this ctx landmarks)
    as [[c0 Hsame] | (img & l & r & _ & Hdraw)].
  - rewrite Hsame in Hcall. injection Hcall as _ <- _.
    exists (lastGlassesPosition this).
    symmetry. apply set_lastGlassesPosition_same.
  - rewrite Hdraw in Hcall. injection Hcall as _ <- _.
    eexists. reflexivity.
Qed.

Lemma forEach_frame faces : forall this ctx c this' ctx',
  forEach this ctx faces = (c, this', ctx') ->
  exists p, this' = set_lastGlassesPosition this p.
Proof.
  induction faces as [| face rest IH]; intros this ctx c this' ctx' Hcall.
  - cbn in Hcall. injection Hcall as _ <- _.
    exists (lastGlassesPosition this).
    symmetry. apply set_lastGlassesPosition_same.
  - cbn [forEach] in Hcall.
    destruct (onFace this ctx face) as [[c1 this1] ctx1] eqn:Hface.
    assert (Hone : exists p, this1 = set_lastGlassesPosition this p).
    { unfold onFace in Hface. destruct (scaledMesh face) as [mesh |].
      - destruct (168 <? List.length mesh)%nat.
        + exact (drawGlassesOnFace_frame this ctx mesh c1 this1 ctx1 Hface).
        + injection Hface as _ <- _.
          exists (lastGlassesPosition this).
          symmetry. apply set_lastGlassesPosition_same.
      - injection Hface as _ <- _.
        exists (lastGlassesPosition this).
        symmetry. apply set_lastGlassesPosition_same. }
    destruct Hone as [p1 ->]. destruct c1.
    + destruct (IH _ ctx1 c this' ctx' Hcall) as [p ->].
      exists p. reflexivity.
    + injection Hcall as _ <- _. exists p1. reflexivity.
Qed.

(** What a tick on a live loop leaves, in terms of the face loop. *)
Lemma detectFaces_live this faces handle canvas ctx c this' ctx' :
  loopLive this ->
  WebcamUILib.canvas (webcamUI this) = Some canvas ->
  WebcamUILib.ctx (webcamUI this) = Some ctx ->
  forEach this
    (ctx ++ [clearRect 0 0 (IZR (Canvas.width canvas))
                       (IZR (Canvas.height canvas))]) faces
    = (c, this', ctx') ->
  lastGlassesPosition (detectFaces this (Some faces) handle) =
    lastGlassesPosition this' /\
  WebcamUILib.ctx (webcamUI (detectFaces this (Some faces) handle)) =
    Some ctx' /\
  animationId (detectFaces this (Some faces) handle) = Some handle.
Proof.
  intros (Hrun & Hmodel & Hvideo & _ & _) Hcanvas Hctx Hloop.
  destruct (forEach_frame faces _ _ _ _ _ Hloop) as [p ->].
  unfold detectFaces, WebcamUILib.isActive, WebcamUILib.getCanvasContext.
  rewrite Hrun, Hmodel, Hvideo, Hcanvas, Hctx. cbn [negb orb].
  rewrite Hloop. cbn. rewrite Hrun. cbn. repeat split.
Qed.

Lemma onFace_valid this ctx img landmarks :
  assetReady this img -> validLandmarks landmarks ->
  (168 < List.length landmarks)%nat ->
  onFace this ctx (mkFace (Some landmarks)) =
    (Normal,
     set_lastGlassesPosition this
       (solve (lastGlassesPosition this) (rawOf img landmarks)),
     ctx ++ drawCalls img
              (solve (lastGlassesPosition this) (rawOf img landmarks))).
Proof.
  intros Hready Hvalid Hlen. unfold onFace. cbn [scaledMesh].
  apply Nat.ltb_lt in Hlen. rewrite Hlen.
  apply drawGlassesOnFace_valid; assumption.
Qed.

Lemma drawGlassesOnFace_topMissing this ctx img landmarks :
  assetReady this img -> topMissing landmarks ->
  drawGlassesOnFace this ctx landmarks = (TypeError, this, ctx).
Proof.
  intros [Himg Hc] (H133 & H362 & H33 & H263 & Htop).
  unfold drawGlassesOnFace. rewrite Himg, Hc. cbn [negb].
  destruct (index landmarks 133); [| contradiction].
  destruct (index landmarks 362); [| contradiction].
  destruct (index landmarks 33); [| contradiction].
  destruct (index landmarks 263); [| contradiction].
  destruct Htop as [-> | H386]; [reflexivity |].
  rewrite H386. destruct (index landmarks 159); reflexivity.
Qed.

Lemma drawGlassesOnFace_cornerMissing this ctx landmarks :
  cornerMissing landmarks ->
  drawGlassesOnFace this ctx landmarks = (Normal, this, ctx).
Proof.
  intros Hc. unfold drawGlassesOnFace.
  destruct (glassesImg this) as [img |]; [| reflexivity].
  destruct (negb (Image.complete img)); [reflexivity |].
  destruct Hc as [H | [H | [H | H]]]; rewrite H;
    repeat match goal with
           | |- context [match index landmarks ?k with _ => _ end] =>
               destruct (index landmarks k)
           end; reflexivity.
Qed.

Lemma assetReady_set_last this img p :
  assetReady this img -> assetReady (set_lastGlassesPosition this p) img.
Proof. intros H. exact H. Qed.

(** X9.  Two valid faces delivered in one tick are solved one after the
    other against the single stored placement: the second face is blended
    with (or, after a stored [x] of 0, replaces) what the first face just
    stored, and both are drawn. *)
Theorem faces_share_one_placement :
  forall this img mesh1 mesh2 handle,
    loopLive this -> assetReady this img ->
    validLandmarks mesh1 -> validLandmarks mesh2 ->
    (168 < List.length mesh1)%nat -> (168 < List.length mesh2)%nat ->
    lastGlassesPosition
      (run this [(Some [mkFace (Some mesh1); mkFace (Some mesh2)], handle)])
    = solve (solve (lastGlassesPosition this) (rawOf img mesh1))
            (rawOf img mesh2) /\
    List.length
      (drawInstructions
         (WebcamUILib.ctx
            (webcamUI
               (run this
                  [(Some [mkFace (Some mesh1); mkFace (Some mesh2)],
                    handle)]))))
    = (List.length (drawInstructions (WebcamUILib.ctx (webcamUI this)))
       + 2)%nat.
Proof.
  intros this img m1 m2 handle Hlive Hready Hv1 Hv2 Hl1 Hl2.
  pose proof Hlive as (_ & _ & _ & Hcanvas & Hctx).
  destruct (WebcamUILib.canvas (webcamUI this)) as [canvas |] eqn:Ecanvas;
    [| contradiction].
  destruct (WebcamUILib.ctx (webcamUI this)) as [ctx |] eqn:Ectx;
    [| contradiction].
  cbn [run].
  set (p1 := solve (lastGlassesPosition this) (rawOf img m1)).
  set (p2 := solve p1 (rawOf img m2)).
  set (ctx1 := ctx ++ [clearRect 0 0 (IZR (Canvas.width canvas))
                                 (IZR (Canvas.height canvas))]).
  assert (Hloop : forEach this ctx1 [mkFace (Some m1); mkFace (Some m2)] =
                  (Normal,
                   set_lastGlassesPosition
                     (set_lastGlassesPosition this p1) p2,
                   (ctx1 ++ drawCalls img p1) ++ drawCalls img p2)).
  { cbn [forEach].
    rewrite (onFace_valid this ctx1 img m1 Hready Hv1 Hl1). fold p1.
    rewrite (onFace_valid (set_lastGlassesPosition this p1) _ img m2
               (assetReady_set_last this img p1 Hready) Hv2 Hl2).
    reflexivity. }
  destruct (detectFaces_live this _ handle canvas ctx _ _ _
              Hlive Ecanvas Ectx Hloop) as (Hlast & Hc & _).
  rewrite Hlast, Hc. split; [reflexivity |].
  unfold drawInstructions, ctx1. rewrite !filter_app, !length_app.
  cbn. lia.
Qed.

(** Two faces, centred on [x = 120] and on [x = 130], from a placement
    centred on [x = 20]. *)
Lemma faces_share_one_placement_witness :
  lastGlassesPosition
    (run (runningApp (Placement.mk 20 195 100 40 0))
         [(Some [mkFace (Some (meshAround 120));
                 mkFace (Some (meshAround 130))], 1%nat)])
  = solve (solve (Placement.mk 20 195 100 40 0)
                 (rawOf image200x80 (meshAround 120)))
          (rawOf image200x80 (meshAround 130)).
Proof.
  apply (faces_share_one_placement
           (runningApp (Placement.mk 20 195 100 40 0)) image200x80
           (meshAround 120) (meshAround 130) 1).
  - exact (runningApp_live _).
  - exact (runningApp_ready _).
  - exact (meshAround_valid 120).
  - exact (meshAround_valid 130).
  - exact (meshAround_length 120).
  - exact (meshAround_length 130).
Defined.

(** X10.  A face whose mesh lacks an eye top throws, and the throw ends
    the face loop: a valid face delivered after it in the same tick is
    neither drawn nor stored.  A face whose mesh lacks an eye corner is
    only skipped: the valid face after it is solved and stored as
    usual. *)
Theorem throwing_face_hides_later_faces :
  forall this img bad good handle,
    loopLive this -> assetReady this img -> validLandmarks good ->
    (168 < List.length bad)%nat -> (168 < List.length good)%nat ->
    (topMissing bad ->
       lastGlassesPosition
         (run this [(Some [mkFace (Some bad); mkFace (Some good)], handle)])
       = lastGlassesPosition this /\
       drawInstructions
         (WebcamUILib.ctx
            (webcamUI
               (run this
                  [(Some [mkFace (Some bad); mkFace (Some good)], handle)])))
       = drawInstructions (WebcamUILib.ctx (webcamUI this))) /\
    (cornerMissing bad ->
       lastGlassesPosition
         (run this [(Some [mkFace (Some bad); mkFace (Some good)], handle)])
       = solve (lastGlassesPosition this) (rawOf img good)).
Proof.
  intros this img bad good handle Hlive Hready Hvalid Hlb Hlg.
  pose proof Hlive as (_ & _ & _ & Hcanvas & Hctx).
  destruct (WebcamUILib.canvas (webcamUI this)) as [canvas |] eqn:Ecanvas;
    [| contradiction].
  destruct (WebcamUILib.ctx (webcamUI this)) as [ctx |] eqn:Ectx;
    [| contradiction].
  cbn [run].
  set (ctx1 := ctx ++ [clearRect 0 0 (IZR (Canvas.width canvas))
                                 (IZR (Canvas.height canvas))]).
  pose proof Hlb as Hlb'. apply Nat.ltb_lt in Hlb'.
  split.
  - intros Htop.
    assert (Hloop : forEach this ctx1 [mkFace (Some bad); mkFace (Some good)]
                    = (TypeError, this, ctx1)).
    { cbn [forEach]. unfold onFace at 1. cbn [scaledMesh]. rewrite Hlb'.
      rewrite (drawGlassesOnFace_topMissing this ctx1 img bad Hready Htop).
      reflexivity. }
    destruct (detectFaces_live this _ handle canvas ctx _ _ _
                Hlive Ecanvas Ectx Hloop) as (Hlast & Hc & _).
    rewrite Hlast, Hc. split; [reflexivity |].
    apply drawInstructions_clear.
  - intros Hcorner.
    assert (Hloop : forEach this ctx1 [mkFace (Some bad); mkFace (Some good)]
                    = (Normal,
                       set_lastGlassesPosition this
                         (solve (lastGlassesPosition this) (rawOf img good)),
                       ctx1 ++ drawCalls img
                                 (solve (lastGlassesPosition this)
                                        (rawOf img good)))).
    { cbn [forEach]. unfold onFace at 1. cbn [scaledMesh]. rewrite Hlb'.
      rewrite (drawGlassesOnFace_cornerMissing this ctx1 bad Hcorner).
      rewrite (onFace_valid this ctx1 img good Hready Hvalid Hlg).
      reflexivity. }
    destruct (detectFaces_live this _ handle canvas ctx _ _ _
                Hlive Ecanvas Ectx Hloop) as (Hlast & _).
    rewrite Hlast. reflexivity.
Qed.

Lemma meshWithHole_index (hole i : nat) :
  index (meshWithHole hole) i =
  if (i <? 468)%nat
  then if Nat.eqb i hole then None else index (meshAround 120) i
  else None.
Proof. unfold meshWithHole. apply index_meshOf. Qed.

Lemma meshWithHole_length (hole : nat) :
  (168 < List.length (meshWithHole hole))%nat.
Proof. unfold meshWithHole. rewrite length_meshOf. lia. Qed.

Lemma meshWithHole_top : topMissing (meshWithHole 159).
Proof.
  unfold topMissing. rewrite !meshWithHole_index.
  unfold meshAround. rewrite !index_meshOf. cbn.
  repeat split; try discriminate. left. reflexivity.
Qed.

Lemma meshWithHole_corner : cornerMissing (meshWithHole 33).
Proof.
  unfold cornerMissing. rewrite !meshWithHole_index. cbn.
  right; right; left. reflexivity.
Qed.

(** A mesh without landmark 159 and one without landmark 33, each followed
    by the full mesh around [x = 120], on an application whose stored
    placement is centred on [x = 20]. *)
Lemma throwing_face_hides_later_faces_witness :
  lastGlassesPosition
    (run (runningApp (Placement.mk 20 195 100 40 0))
         [(Some [mkFace (Some (meshWithHole 159));
                 mkFace (Some (meshAround 120))], 1%nat)])
  = Placement.mk 20 195 100 40 0 /\
  lastGlassesPosition
    (run (runningApp (Placement.mk 20 195 100 40 0))
         [(Some [mkFace (Some (meshWithHole 33));
                 mkFace (Some (meshAround 120))], 1%nat)])
  = solve (Placement.mk 20 195 100 40 0)
          (rawOf image200x80 (meshAround 120)).
Proof.
  split.
  - exact (proj1
             (proj1 (throwing_face_hides_later_faces
                       (runningApp (Placement.mk 20 195 100 40 0))
                       image200x80 (meshWithHole 159) (meshAround 120) 1
                       (runningApp_live _) (runningApp_ready _)
                       (meshAround_valid 120) (meshWithHole_length 159)
                       (meshAround_length 120))
                    meshWithHole_top)).
  - exact (proj2 (throwing_face_hides_later_faces
                    (runningApp (Placement.mk 20 195 100 40 0))
                    image200x80 (meshWithHole 33) (meshAround 120) 1
                    (runningApp_live _) (runningApp_ready _)
                    (meshAround_valid 120) (meshWithHole_length 33)
                    (meshAround_length 120))
                 meshWithHole_corner).
Defined.

(** ** Detector failures *)

Lemma detectFaces_failed this handle :
  loopLive this ->
  detectFaces this None handle = set_animationId this (Some handle).
Proof.
  intros (Hrun & Hmodel & Hvideo & Hcanvas & Hctx).
  unfold detectFaces, WebcamUILib.isActive, WebcamUILib.getCanvasContext.
  rewrite Hrun, Hmodel, Hvideo. cbn [negb orb].
  destruct (WebcamUILib.canvas (webcamUI this)); [| contradiction].
  destruct (WebcamUILib.ctx (webcamUI this)); [| contradiction].
  reflexivity.
Qed.

Lemma set_animationId_twice this a b :
  set_animationId (set_animationId this a) b = set_animationId this b.
Proof. reflexivity. Qed.

Lemma loopLive_set_animationId this a :
  loopLive this -> loopLive (set_animationId this a).
Proof. intros H. exact H. Qed.

(** X11.  On a live loop a failing detector is survived: after any number
    of ticks in which [estimateFaces] rejects, the application is as it
    was, canvas included, except that [animationId] holds the handle of
    the last frame request, so the loop goes on. *)
Theorem failed_detections_only_rearm :
  forall this handles handle,
    loopLive this ->
    run this (failedTicks (handles ++ [handle])) =
      set_animationId this (Some handle).
Proof.
  intros this handles. revert this.
  induction handles as [| h rest IH]; intros this handle Hlive.
  - cbn. apply detectFaces_failed. exact Hlive.
  - cbn [app failedTicks map run].
    rewrite (detectFaces_failed this h Hlive).
    change (map (fun handle0 => (@None (list Face), handle0))
                (rest ++ [handle]))
      with (failedTicks (rest ++ [handle])).
    rewrite (IH _ handle (loopLive_set_animationId this (Some h) Hlive)).
    apply set_animationId_twice.
Qed.

(** Three rejected detections in a row. *)
Lemma failed_detections_only_rearm_witness :
  run (runningApp (Placement.mk 20 195 100 40 0)) (failedTicks [4; 5; 6]%nat)
  = set_animationId (runningApp (Placement.mk 20 195 100 40 0))
                    (Some 6%nat).
Proof.
  apply (failed_detections_only_rearm
           (runningApp (Placement.mk 20 195 100 40 0)) [4; 5]%nat 6%nat).
  exact (runningApp_live _).
Defined.

(** ** The drawing history *)

Lemma drawGlassesOnFace_appends this ctx landmarks c this' ctx' :
  drawGlassesOnFace this ctx landmarks = (c, this', ctx') ->
  exists added,
    ctx' = ctx ++ added /\
    (List.length (filter isDrawImage added) <= 1)%nat.
Proof.
  intros Hcall.
  destruct (drawGlassesOnFace_cases this ctx landmarks)
    as [[c0 Hsame] | (img & l & r & _ & Hdraw)].
  - rewrite Hsame in Hcall. injection Hcall as _ _ <-.
    exists []. rewrite app_nil_r. split; [reflexivity | cbn; lia].
  - rewrite Hdraw in Hcall. injection Hcall as _ _ <-.
    eexists. split; [reflexivity | cbn; lia].
Qed.

Lemma forEach_appends faces : forall this ctx c this' ctx',
  forEach this ctx faces = (c, this', ctx') ->
  exists added,
    ctx' = ctx ++ added /\
    (List.length (filter isDrawImage added) <= List.length faces)%nat.
Proof.
  induction faces as [| face rest IH]; intros this ctx c this' ctx' Hcall.
  - cbn in Hcall. injection Hcall as _ _ <-.
    exists []. rewrite app_nil_r. split; [reflexivity | cbn; lia].
  - cbn [forEach] in Hcall.
    destruct (onFace this ctx face) as [[c1 this1] ctx1] eqn:Hface.
    assert (Hone : exists added,
               ctx1 = ctx ++ added /\
               (List.length (filter isDrawImage added) <= 1)%nat).
    { unfold onFace in Hface. destruct (scaledMesh face) as [mesh |].
      - destruct (168 <? List.length mesh)%nat.
        + exact (drawGlassesOnFace_appends this ctx mesh c1 this1 ctx1 Hface).
        + injection Hface as _ _ <-.
          exists []. rewrite app_nil_r. split; [reflexivity | cbn; lia].
      - injection Hface as _ _ <-.
        exists []. rewrite app_nil_r. split; [reflexivity | cbn; lia]. }
    destruct Hone as (added1 & -> & Hn1). destruct c1.
    + destruct (IH _ _ c this' ctx' Hcall) as (added2 & -> & Hn2).
      exists (added1 ++ added2). rewrite app_assoc.
      split; [reflexivity |].
      rewrite filter_app, length_app. cbn [List.length]. lia.
    + injection Hcall as _ _ <-.
      exists added1. split; [reflexivity | cbn [List.length]; lia].
Qed.

Lemma detectFaces_appends this estimate handle ctx :
  WebcamUILib.ctx (webcamUI this) = Some ctx ->
  exists added,
    WebcamUILib.ctx (webcamUI (detectFaces this estimate handle)) =
      Some (ctx ++ added) /\
    (List.length (filter isDrawImage added)
     <= totalFaces [(estimate, handle)])%nat.
Proof.
  intros Hctx.
  assert (Hsame : exists added,
             WebcamUILib.ctx (webcamUI this) = Some (ctx ++ added) /\
             (List.length (filter isDrawImage added)
              <= totalFaces [(estimate, handle)])%nat).
  { exists []. rewrite app_nil_r. split; [exact Hctx | cbn; lia]. }
  unfold detectFaces.
  destruct (negb (WebcamUILib.isActive (webcamUI this)) || negb (model this));
    [exact Hsame |].
  destruct (WebcamUILib.video (webcamUI this)); [| exact Hsame].
  destruct (WebcamUILib.canvas (webcamUI this)) as [canvas |];
    [| exact Hsame].
  unfold WebcamUILib.getCanvasContext. rewrite Hctx.
  destruct estimate as [faces |].
  - destruct (forEach this
                (ctx ++ [clearRect 0 0 (IZR (Canvas.width canvas))
                                   (IZR (Canvas.height canvas))]) faces)
      as [[c this'] ctx'] eqn:Hloop.
    destruct (forEach_appends faces _ _ _ _ _ Hloop) as (added & -> & Hn).
    exists ([clearRect 0 0 (IZR (Canvas.width canvas))
                       (IZR (Canvas.height canvas))] ++ added).
    split.
    + match goal with |- context [if ?b then _ else _] => destruct b end;
        cbn; rewrite <- app_assoc; reflexivity.
    + cbn. lia.
  - match goal with |- context [if ?b then _ else _] => destruct b end;
      exact Hsame.
Qed.

Lemma totalFaces_cons tick rest :
  totalFaces (tick :: rest) = (totalFaces [tick] + totalFaces rest)%nat.
Proof. destruct tick as [[faces |] handle]; cbn; lia. Qed.

(** X12.  Ticks only add to what was drawn: the calls recorded on the
    context before a sequence of ticks are still there, in order, at the
    front of the record after it, and the [drawImage] calls added are at
    most one per face delivered. *)
Theorem ticks_only_append_to_the_canvas :
  forall ticks this ctx,
    WebcamUILib.ctx (webcamUI this) = Some ctx ->
    exists added,
      WebcamUILib.ctx (webcamUI (run this ticks)) = Some (ctx ++ added) /\
      (List.length (filter isDrawImage added) <= totalFaces ticks)%nat.
Proof.
  induction ticks as [| [estimate handle] rest IH]; intros this ctx Hctx.
  - exists []. rewrite app_nil_r. split; [exact Hctx | cbn; lia].
  - cbn [run].
    destruct (detectFaces_appends this estimate handle ctx Hctx)
      as (added1 & Hctx1 & Hn1).
    destruct (IH _ _ Hctx1) as (added2 & Hctx2 & Hn2).
    exists (added1 ++ added2). rewrite app_assoc.
    split; [exact Hctx2 |].
    rewrite filter_app, length_app, (totalFaces_cons (estimate, handle) rest).
    lia.
Qed.

(** Three faces over two ticks, one of them without landmark 159. *)
Lemma ticks_only_append_to_the_canvas_witness :
  exists added,
    WebcamUILib.ctx
      (webcamUI
         (run (runningApp sentinel)
              [oneFace (meshAround 120) 1;
               (Some [mkFace (Some (meshAround 130));
                      mkFace (Some (meshWithHole 159))], 2%nat)]))
    = Some ([] ++ added) /\
    (List.length (filter isDrawImage added) <= 3)%nat.
Proof.
  apply (ticks_only_append_to_the_canvas
           [oneFace (meshAround 120) 1;
            (Some [mkFace (Some (meshAround 130));
                   mkFace (Some (meshWithHole 159))], 2%nat)]
           (runningApp sentinel) []).
  reflexivity.
Defined.

(** ** Stop requests and ticks in flight *)

Lemma detectFaces_two_halves this estimate handle :
  detectFaces this estimate handle =
  if negb (WebcamUILib.isActive (webcamUI this)) || negb (model this)
  then this
  else if WebcamUILib.video (webcamUI this)
       then detectFacesResumed this estimate handle
       else this.
Proof.
  unfold detectFaces, detectFacesResumed.
  destruct (negb (WebcamUILib.isActive (webcamUI this)) || negb (model this));
    [reflexivity |].
  destruct (WebcamUILib.video (webcamUI this)); [| reflexivity].
  destruct (WebcamUILib.canvas (webcamUI this)); [| reflexivity].
  destruct (WebcamUILib.getCanvasContext (webcamUI this)); reflexivity.
Qed.

Lemma detectFacesResumed_set_animationId this a estimate handle :
  WebcamUILib.isRunning (webcamUI this) = true ->
  WebcamUILib.canvas (webcamUI this) <> None ->
  WebcamUILib.ctx (webcamUI this) <> None ->
  detectFacesResumed (set_animationId this a) estimate handle =
  detectFacesResumed this estimate handle.
Proof.
  intros Hrun Hcanvas Hctx. unfold detectFacesResumed.
  cbn [set_animationId webcamUI]. unfold WebcamUILib.getCanvasContext.
  destruct (WebcamUILib.canvas (webcamUI this)) as [canvas |];
    [| contradiction].
  destruct (WebcamUILib.ctx (webcamUI this)) as [ctx |]; [| contradiction].
  destruct estimate as [faces |].
  - rewrite forEach_set_animationId.
    destruct (forEach this _ faces) as [[c this'] ctx'] eqn:Hloop.
    destruct (forEach_frame faces _ _ _ _ _ Hloop) as [p ->].
    cbn. unfold WebcamUILib.isActive. cbn. rewrite Hrun. reflexivity.
  - unfold WebcamUILib.isActive. cbn. rewrite Hrun. reflexivity.
Qed.

(** X13.  [stopFaceDetection] only cancels a frame request that is still
    pending.  While the camera runs, a stop request (the page becoming
    hidden, lines 526-528) that arrives while a tick waits for the
    detector changes nothing: the tick resumes exactly as it would have
    without the request, and asks for the next frame. *)
Theorem stop_request_during_tick_is_lost :
  forall this estimate handle,
    WebcamUILib.isRunning (webcamUI this) = true ->
    WebcamUILib.canvas (webcamUI this) <> None ->
    WebcamUILib.ctx (webcamUI this) <> None ->
    detectFacesResumed (stopFaceDetection this) estimate handle =
      detectFacesResumed this estimate handle /\
    animationId (detectFacesResumed (stopFaceDetection this) estimate handle)
      = Some handle.
Proof.
  intros this estimate handle Hrun Hcanvas Hctx.
  assert (Hsame : detectFacesResumed (stopFaceDetection this) estimate handle
                  = detectFacesResumed this estimate handle).
  { unfold stopFaceDetection.
    destruct (animationId this) as [id |]; [| reflexivity].
    destruct (Nat.eqb id 0); [reflexivity |].
    apply detectFacesResumed_set_animationId; assumption. }
  split; [exact Hsame |]. rewrite Hsame.
  unfold detectFacesResumed, WebcamUILib.getCanvasContext.
  destruct (WebcamUILib.canvas (webcamUI this)) as [canvas |];
    [| contradiction].
  destruct (WebcamUILib.ctx (webcamUI this)) as [ctx |]; [| contradiction].
  destruct estimate as [faces |].
  - destruct (forEach this _ faces) as [[c this'] ctx'] eqn:Hloop.
    destruct (forEach_frame faces _ _ _ _ _ Hloop) as [p ->].
    cbn. unfold WebcamUILib.isActive. cbn. rewrite Hrun. reflexivity.
  - unfold WebcamUILib.isActive. rewrite Hrun. reflexivity.
Qed.

(** A looping application paused while a tick with one face is in
    flight. *)
Lemma stop_request_during_tick_is_lost_witness :
  animationId (stopFaceDetection (loopingApp (Placement.mk 20 195 100 40 0)))
    = None /\
  animationId
    (detectFacesResumed
       (stopFaceDetection (loopingApp (Placement.mk 20 195 100 40 0)))
       (Some [mkFace (Some (meshAround 120))]) 8)
    = Some 8%nat.
Proof.
  split; [reflexivity |].
  apply (stop_request_during_tick_is_lost
           (loopingApp (Placement.mk 20 195 100 40 0))
           (Some [mkFace (Some (meshAround 120))]) 8).
  - reflexivity.
  - cbn. discriminate.
  - cbn. discriminate.
Defined.

(** ** Stopping the camera *)

Lemma stopFaceDetection_animationId this :
  stopFaceDetection this = this \/
  stopFaceDetection this = set_animationId this None.
Proof.
  unfold stopFaceDetection.
  destruct (animationId this) as [id |]; [destruct (Nat.eqb id 0) |]; tauto.
Qed.

Lemma stopCamera_fields this :
  WebcamUILib.isRunning (webcamUI (stopCamera this)) = false /\
  lastGlassesPosition (stopCamera this) = lastGlassesPosition this /\
  glassesImg (stopCamera this) = glassesImg this /\
  model (stopCamera this) = model this /\
  isModelLoaded (stopCamera this) = isModelLoaded this /\
  currentGlassesImage (stopCamera this) = currentGlassesImage this /\
  WebcamUILib.video (webcamUI (stopCamera this)) =
    WebcamUILib.video (webcamUI this) /\
  WebcamUILib.canvas (webcamUI (stopCamera this)) =
    WebcamUILib.canvas (webcamUI this).
Proof.
  unfold stopCamera, onCameraStop.
  destruct (stopFaceDetection_animationId this) as [-> | ->];
    match goal with
    | |- context [stopFaceDetection ?t] =>
        destruct (stopFaceDetection_animationId t) as [-> | ->]
    end; repeat split.
Qed.

(** X14.  After [stopCamera] nothing moves until the camera is started
    again: any sequence of ticks leaves the application exactly as
    [stopCamera] left it.  [stopCamera] itself keeps the stored placement
    and the overlay image. *)
Theorem stopped_camera_freezes_everything :
  forall this ticks,
    run (stopCamera this) ticks = stopCamera this /\
    lastGlassesPosition (stopCamera this) = lastGlassesPosition this /\
    glassesImg (stopCamera this) = glassesImg this.
Proof.
  intros this ticks.
  destruct (stopCamera_fields this) as (Hrun & Hlast & Himg & _).
  split; [| split; assumption].
  apply run_dead. left. exact Hrun.
Qed.

Lemma detectFacesResumed_valid this img landmarks handle canvas ctx :
  WebcamUILib.canvas (webcamUI this) = Some canvas ->
  WebcamUILib.ctx (webcamUI this) = Some ctx ->
  assetReady this img -> validLandmarks landmarks ->
  (168 < List.length landmarks)%nat ->
  lastGlassesPosition
    (detectFacesResumed this (Some [mkFace (Some landmarks)]) handle)
    = solve (lastGlassesPosition this) (rawOf img landmarks) /\
  drawInstructions
    (WebcamUILib.ctx
       (webcamUI
          (detectFacesResumed this (Some [mkFace (Some landmarks)]) handle)))
    = drawInstructions (Some ctx) ++
      filter isDrawImage
        (drawCalls img (solve (lastGlassesPosition this)
                              (rawOf img landmarks))) /\
  animationId
    (detectFacesResumed this (Some [mkFace (Some landmarks)]) handle)
    = if WebcamUILib.isRunning (webcamUI this)
      then Some handle else animationId this.
Proof.
  intros Hcanvas Hctx Hready Hvalid Hlen.
  unfold detectFacesResumed, WebcamUILib.getCanvasContext.
  rewrite Hcanvas, Hctx. cbn [forEach].
  rewrite (onFace_valid this _ img landmarks Hready Hvalid Hlen).
  unfold WebcamUILib.isActive. cbn -[drawCalls solve].
  destruct (WebcamUILib.isRunning (webcamUI this));
    cbn -[drawCalls solve]; (split; [reflexivity |]);
    (split; [| reflexivity]);
    rewrite !filter_app; cbn -[drawCalls solve];
    rewrite app_nil_r; reflexivity.
Qed.

Lemma stopCamera_ctx this canvas ctx :
  WebcamUILib.canvas (webcamUI this) = Some canvas ->
  WebcamUILib.ctx (webcamUI this) = Some ctx ->
  WebcamUILib.ctx (webcamUI (stopCamera this)) =
    Some (ctx ++ [clearRect 0 0 (IZR (Canvas.width canvas))
                            (IZR (Canvas.height canvas))]).
Proof.
  intros Hcanvas Hctx. unfold stopCamera, onCameraStop.
  destruct (stopFaceDetection_animationId this) as [-> | ->];
    match goal with
    | |- context [stopFaceDetection ?t] =>
        destruct (stopFaceDetection_animationId t) as [-> | ->]
    end; cbn; rewrite Hcanvas, Hctx; reflexivity.
Qed.

Lemma stopCamera_animationId this :
  animationId this <> Some 0%nat -> animationId (stopCamera this) = None.
Proof.
  intros Hid. unfold stopCamera, onCameraStop, stopFaceDetection.
  destruct (animationId this) as [id |] eqn:Eid.
  - destruct (Nat.eqb_spec id 0) as [-> | Hne]; [contradiction |].
    cbn. reflexivity.
  - unfold set_webcamUI. cbn. rewrite Eid. reflexivity.
Qed.

(** X15.  [stopCamera] does not stop a tick that already waits for the
    detector.  When that tick resumes with a valid face it still solves
    and stores a placement and draws the overlay onto the canvas that
    [stopCamera] has just cleared; only the next frame is not requested. *)
Theorem tick_in_flight_draws_after_stopCamera :
  forall this img landmarks handle,
    WebcamUILib.canvas (webcamUI this) <> None ->
    WebcamUILib.ctx (webcamUI this) <> None ->
    animationId this <> Some 0%nat ->
    assetReady this img -> validLandmarks landmarks ->
    (168 < List.length landmarks)%nat ->
    lastGlassesPosition
      (detectFacesResumed (stopCamera this)
                          (Some [mkFace (Some landmarks)]) handle)
      = solve (lastGlassesPosition this) (rawOf img landmarks) /\
    List.length
      (drawInstructions
         (WebcamUILib.ctx
            (webcamUI
               (detectFacesResumed (stopCamera this)
                                   (Some [mkFace (Some landmarks)]) handle))))
      = (List.length (drawInstructions (WebcamUILib.ctx (webcamUI this)))
         + 1)%nat /\
    animationId
      (detectFacesResumed (stopCamera this)
                          (Some [mkFace (Some landmarks)]) handle)
      = None.
Proof.
  intros this img landmarks handle Hcanvas Hctx Hid Hready Hvalid Hlen.
  destruct (WebcamUILib.canvas (webcamUI this)) as [canvas |] eqn:Ecanvas;
    [| contradiction].
  destruct (WebcamUILib.ctx (webcamUI this)) as [ctx |] eqn:Ectx;
    [| contradiction].
  destruct (stopCamera_fields this)
    as (Hrun & Hlast & Himg & _ & _ & _ & _ & Hcv).
  assert (Hready' : assetReady (stopCamera this) img).
  { destruct Hready as [Hi Hc]. split; [rewrite Himg; exact Hi | exact Hc]. }
  rewrite Ecanvas in Hcv.
  destruct (detectFacesResumed_valid (stopCamera this) img landmarks handle
              canvas _ Hcv (stopCamera_ctx this canvas ctx Ecanvas Ectx)
              Hready' Hvalid Hlen) as (H1 & H2 & H3).
  rewrite H1, H2, H3, Hlast, Hrun.
  split; [reflexivity |]. split.
  - rewrite drawInstructions_clear, length_app. cbn. reflexivity.
  - apply stopCamera_animationId. exact Hid.
Qed.

(** The camera of a looping application is stopped while a tick with one
    face is in flight. *)
Lemma tick_in_flight_draws_after_stopCamera_witness :
  lastGlassesPosition
    (detectFacesResumed
       (stopCamera (loopingApp (Placement.mk 20 195 100 40 0)))
       (Some [mkFace (Some (meshAround 120))]) 8)
  = solve (Placement.mk 20 195 100 40 0)
          (rawOf image200x80 (meshAround 120)).
Proof.
  apply (tick_in_flight_draws_after_stopCamera
           (loopingApp (Placement.mk 20 195 100 40 0)) image200x80
           (meshAround 120) 8).
  - cbn. discriminate.
  - cbn. discriminate.
  - cbn. intros H. discriminate H.
  - split; reflexivity.
  - exact (meshAround_valid 120).
  - exact (meshAround_length 120).
Defined.

(** ** Starting the camera *)

(** X16.  Stopping and restarting the camera does not restart the
    smoothing either: with the detector already loaded, the first valid
    frame after [stopCamera] and a successful [startCamera] is blended
    with the placement stored before the stop. *)
Theorem camera_restart_keeps_smoothing :
  forall this img landmarks videoWidth videoHeight loaded handle,
    model this = true ->
    WebcamUILib.video (webcamUI this) = true ->
    WebcamUILib.canvas (webcamUI this) <> None ->
    WebcamUILib.ctx (webcamUI this) <> None ->
    assetReady this img -> validLandmarks landmarks ->
    (168 < List.length landmarks)%nat ->
    Placement.x (lastGlassesPosition this) <> 0 ->
    lastGlassesPosition
      (snd (startCamera (stopCamera this) (granted videoWidth videoHeight)
                        loaded (Some [mkFace (Some landmarks)]) handle))
    = smooth (lastGlassesPosition this) (rawOf img landmarks).
Proof.
  intros this img landmarks vw vh loaded handle
    Hmodel Hvideo Hcanvas Hctx Hready Hvalid Hlen Hx.
  destruct (WebcamUILib.canvas (webcamUI this)) as [canvas |] eqn:Ecanvas;
    [| contradiction].
  destruct (WebcamUILib.ctx (webcamUI this)) as [ctx |] eqn:Ectx;
    [| contradiction].
  destruct (stopCamera_fields this)
    as (_ & Hlast & Himg & Hm & _ & _ & Hv & Hcv).
  pose proof (stopCamera_ctx this canvas ctx Ecanvas Ectx) as Hcx.
  rewrite Ecanvas in Hcv. rewrite Hvideo in Hv. rewrite Hmodel in Hm.
  unfold startCamera, Webcam.startCamera, onCameraStart,
    loadFaceDetectionModel.
  rewrite Hv, Hcv. cbn [Webcam.success Webcam.ui set_webcamUI model].
  rewrite Hm. cbn [orb snd].
  rewrite startFaceDetection_is_a_tick.
  match goal with
  | |- lastGlassesPosition (detectFaces ?t _ _) = _ =>
      destruct (tick_valid t img landmarks handle) as (Htick & _)
  end.
  - repeat split; cbn; try assumption; try discriminate.
    rewrite Hcx. discriminate.
  - destruct Hready as [Hi Hc].
    split; [cbn; rewrite Himg; exact Hi | exact Hc].
  - exact Hvalid.
  - exact Hlen.
  - rewrite Htick. unfold set_webcamUI. cbn [lastGlassesPosition].
    rewrite Hlast.
    apply solve_smooth. exact Hx.
Qed.

(** The camera of a running application is stopped and started again,
    and the first frame is centred on [x = 120]. *)
Lemma camera_restart_keeps_smoothing_witness :
  lastGlassesPosition
    (snd (startCamera
            (stopCamera (loopingApp (Placement.mk 20 195 100 40 0)))
            (granted 640 480) true
            (Some [mkFace (Some (meshAround 120))]) 9))
  = smooth (Placement.mk 20 195 100 40 0)
           (rawOf image200x80 (meshAround 120)).
Proof.
  apply (camera_restart_keeps_smoothing
           (loopingApp (Placement.mk 20 195 100 40 0)) image200x80
           (meshAround 120) 640 480 true 9).
  - reflexivity.
  - reflexivity.
  - cbn. discriminate.
  - cbn. discriminate.
  - split; reflexivity.
  - exact (meshAround_valid 120).
  - exact (meshAround_length 120).
  - cbn. lra.
Defined.

(** X17.  When the camera starts but the detector fails to load,
    [startCamera] rejects with the camera left running and no detector:
    from then on ticks change nothing, so no overlay is ever drawn. *)
Theorem camera_without_detector_never_draws :
  forall this videoWidth videoHeight estimate handle ticks,
    model this = false -> isModelLoaded this = false ->
    WebcamUILib.video (webcamUI this) = true ->
    fst (startCamera this (granted videoWidth videoHeight) false
                     estimate handle) = rejected /\
    WebcamUILib.isRunning
      (webcamUI
         (snd (startCamera this (granted videoWidth videoHeight) false
                           estimate handle))) = true /\
    run (snd (startCamera this (granted videoWidth videoHeight) false
                          estimate handle)) ticks
    = snd (startCamera this (granted videoWidth videoHeight) false
                       estimate handle).
Proof.
  intros this vw vh estimate handle ticks Hmodel Hloaded Hvideo.
  unfold startCamera, Webcam.startCamera, onCameraStart,
    loadFaceDetectionModel.
  rewrite Hvideo. cbn [Webcam.success Webcam.ui set_webcamUI model
    isModelLoaded].
  rewrite Hmodel, Hloaded. cbn [orb fst snd].
  split; [reflexivity |]. split; [reflexivity |].
  apply run_dead. right; left. exact Hmodel.
Qed.

(** The instance right after construction, on a page with a video
    element. *)
Lemma camera_without_detector_never_draws_witness :
  run (snd (startCamera (constructor runningUI) (granted 640 480) false
                        (Some [mkFace (Some (meshAround 120))]) 1))
      [oneFace (meshAround 120) 2]
  = snd (startCamera (constructor runningUI) (granted 640 480) false
                     (Some [mkFace (Some (meshAround 120))]) 1).
Proof.
  apply (camera_without_detector_never_draws (constructor runningUI)
           640 480 (Some [mkFace (Some (meshAround 120))]) 1
           [oneFace (meshAround 120) 2]).
  - reflexivity.
  - reflexivity.
  - reflexivity.
Defined.

(** X18.  On a page without a video element, camera access that was
    granted still ends as a failure: [WebcamUILib.startCamera] returns
    [false], leaves [isRunning], the canvas and the context as they were,
    and the error shown is the one for a browser without camera
    support. *)
Theorem missing_video_element_reported_as_unsupported :
  forall ui videoWidth videoHeight,
    WebcamUILib.video ui = false ->
    Webcam.startCamera ui (granted videoWidth videoHeight) =
      Webcam.mkStarted false ui
        (Some (text "Camera not supported in this browser.")).
Proof.
  intros ui vw vh Hvideo. unfold Webcam.startCamera. rewrite Hvideo.
  reflexivity.
Qed.

(** A page with a canvas but no video element. *)
Lemma missing_video_element_reported_as_unsupported_witness :
  Webcam.startCamera
    (WebcamUILib.mk false (Some (Canvas.mk 640 480)) (Some []) false)
    (granted 640 480) =
  Webcam.mkStarted false
    (WebcamUILib.mk false (Some (Canvas.mk 640 480)) (Some []) false)
    (Some (text "Camera not supported in this browser.")).
Proof.
  apply (missing_video_element_reported_as_unsupported
           (WebcamUILib.mk false (Some (Canvas.mk 640 480)) (Some []) false)
           640 480).
  reflexivity.
Defined.

(** ** What holds after any sequence of events *)

Lemma detectFacesResumed_core this estimate handle :
  model (detectFacesResumed this estimate handle) = model this /\
  isModelLoaded (detectFacesResumed this estimate handle)
    = isModelLoaded this /\
  glassesImg (detectFacesResumed this estimate handle) = glassesImg this /\
  currentGlassesImage (detectFacesResumed this estimate handle)
    = currentGlassesImage this.
Proof.
  unfold detectFacesResumed.
  destruct (WebcamUILib.canvas (webcamUI this)); [| repeat split].
  destruct (WebcamUILib.getCanvasContext (webcamUI this)) as [ctx |];
    [| repeat split].
  destruct estimate as [faces |].
  - destruct (forEach this _ faces) as [[c this'] ctx'] eqn:Hloop.
    destruct (forEach_frame faces _ _ _ _ _ Hloop) as [p ->].
    match goal with |- context [if ?b then _ else _] => destruct b end;
      repeat split.
  - match goal with |- context [if ?b then _ else _] => destruct b end;
      repeat split.
Qed.

Lemma detectFaces_core this estimate handle :
  model (detectFaces this estimate handle) = model this /\
  isModelLoaded (detectFaces this estimate handle) = isModelLoaded this /\
  glassesImg (detectFaces this estimate handle) = glassesImg this /\
  currentGlassesImage (detectFaces this estimate handle)
    = currentGlassesImage this.
Proof.
  rewrite detectFaces_two_halves.
  destruct (negb (WebcamUILib.isActive (webcamUI this)) || negb (model this));
    [repeat split |].
  destruct (WebcamUILib.video (webcamUI this)); [| repeat split].
  apply detectFacesResumed_core.
Qed.

Lemma stopFaceDetection_core this :
  model (stopFaceDetection this) = model this /\
  isModelLoaded (stopFaceDetection this) = isModelLoaded this /\
  glassesImg (stopFaceDetection this) = glassesImg this /\
  currentGlassesImage (stopFaceDetection this) = currentGlassesImage this.
Proof.
  destruct (stopFaceDetection_animationId this) as [-> | ->]; repeat split.
Qed.

Lemma stopCamera_core this :
  model (stopCamera this) = model this /\
  isModelLoaded (stopCamera this) = isModelLoaded this /\
  glassesImg (stopCamera this) = glassesImg this /\
  currentGlassesImage (stopCamera this) = currentGlassesImage this.
Proof.
  destruct (stopCamera_fields this) as (_ & _ & H1 & H2 & H3 & H4 & _).
  tauto.
Qed.

Lemma act_model_flag this a :
  model this = isModelLoaded this ->
  model (act this a) = isModelLoaded (act this a).
Proof.
  intros Hinv. destruct a; cbn [act].
  - destruct (detectFaces_core this estimate handle) as (-> & -> & _).
    exact Hinv.
  - destruct (detectFacesResumed_core this estimate handle) as (-> & -> & _).
    exact Hinv.
  - exact Hinv.
  - unfold imageLoaded. destruct (glassesImg this); exact Hinv.
  - unfold startCamera, onCameraStart, loadFaceDetectionModel.
    destruct (Webcam.success (Webcam.startCamera (webcamUI this) outcome)).
    + cbn [set_webcamUI model isModelLoaded].
      destruct (model this || isModelLoaded this).
      * cbn [snd]. rewrite startFaceDetection_is_a_tick.
        destruct (detectFaces_core
                    (set_webcamUI this
                       (Webcam.ui
                          (Webcam.startCamera (webcamUI this) outcome)))
                    estimate handle) as (-> & -> & _).
        exact Hinv.
      * destruct loaded; cbn [snd].
        -- rewrite startFaceDetection_is_a_tick.
           match goal with
           | |- model (detectFaces ?t _ _) = _ =>
               destruct (detectFaces_core t estimate handle) as (-> & -> & _)
           end.
           reflexivity.
        -- exact Hinv.
    + cbn [snd]. unfold onCameraError.
      destruct (stopFaceDetection_core
                  (set_webcamUI this
                     (Webcam.ui (Webcam.startCamera (webcamUI this) outcome))))
        as (-> & -> & _).
      exact Hinv.
  - destruct (stopCamera_core this) as (-> & -> & _). exact Hinv.
  - destruct (stopFaceDetection_core this) as (-> & -> & _). exact Hinv.
  - destruct (WebcamUILib.isActive (webcamUI this)); [| exact Hinv].
    rewrite startFaceDetection_is_a_tick.
    destruct (detectFaces_core this estimate handle) as (-> & -> & _).
    exact Hinv.
  - unfold updateFaceDetectionConfig, loadFaceDetectionModel.
    destruct (isModelLoaded this) eqn:El; [| congruence].
    cbn [webcamUI model isModelLoaded orb].
    destruct (WebcamUILib.isActive (webcamUI this)); [| reflexivity].
    destruct loaded; [| reflexivity].
    rewrite startFaceDetection_is_a_tick.
    match goal with
    | |- model (detectFaces ?t _ _) = _ =>
        destruct (detectFaces_core t estimate handle) as (-> & -> & _)
    end.
    reflexivity.
  - reflexivity.
Qed.

(** X19.  Whatever happens to an instance after its construction (ticks,
    style clicks, images arriving, camera starts and stops, the page being
    hidden or shown, settings updates, the page unloading), the detector
    is there exactly when [isModelLoaded] says so. *)
Theorem model_flag_matches_model :
  forall ui actions,
    model (actAll (constructor ui) actions) =
    isModelLoaded (actAll (constructor ui) actions).
Proof.
  intros ui actions. unfold actAll.
  assert (Hgen : forall this,
             model this = isModelLoaded this ->
             model (fold_left act actions this) =
             isModelLoaded (fold_left act actions this)).
  { induction actions as [| a rest IH]; intros this Hinv; [exact Hinv |].
    cbn [fold_left]. apply IH. apply act_model_flag. exact Hinv. }
  apply Hgen. reflexivity.
Qed.

Lemma imageMatchesStyle_core this this' :
  glassesImg this' = glassesImg this ->
  currentGlassesImage this' = currentGlassesImage this ->
  imageMatchesStyle this -> imageMatchesStyle this'.
Proof.
  intros Hi Hc (img & Himg & Hsrc). exists img.
  rewrite Hi, Hc. split; assumption.
Qed.

Lemma act_imageMatchesStyle this a :
  imageMatchesStyle this -> imageMatchesStyle (act this a).
Proof.
  intros Hinv. destruct a; cbn [act].
  - destruct (detectFaces_core this estimate handle) as (_ & _ & Hi & Hc).
    exact (imageMatchesStyle_core _ _ Hi Hc Hinv).
  - destruct (detectFacesResumed_core this estimate handle)
      as (_ & _ & Hi & Hc).
    exact (imageMatchesStyle_core _ _ Hi Hc Hinv).
  - eexists. split; reflexivity.
  - destruct Hinv as (img & Himg & Hsrc). unfold imageLoaded. rewrite Himg.
    eexists. split; [reflexivity | exact Hsrc].
  - unfold startCamera, onCameraStart, loadFaceDetectionModel.
    set (this1 := set_webcamUI this
                    (Webcam.ui (Webcam.startCamera (webcamUI this) outcome))).
    assert (Hinv1 : imageMatchesStyle this1) by exact Hinv.
    destruct (Webcam.success (Webcam.startCamera (webcamUI this) outcome)).
    + destruct (model this1 || isModelLoaded this1).
      * cbn [snd]. rewrite startFaceDetection_is_a_tick.
        destruct (detectFaces_core this1 estimate handle)
          as (_ & _ & Hi & Hc).
        exact (imageMatchesStyle_core _ _ Hi Hc Hinv1).
      * destruct loaded; cbn [snd]; [| exact Hinv1].
        rewrite startFaceDetection_is_a_tick.
        match goal with
        | |- imageMatchesStyle (detectFaces ?t _ _) =>
            destruct (detectFaces_core t estimate handle)
              as (_ & _ & Hi & Hc);
            exact (imageMatchesStyle_core t _ Hi Hc Hinv1)
        end.
    + cbn [snd]. unfold onCameraError.
      destruct (stopFaceDetection_core this1) as (_ & _ & Hi & Hc).
      exact (imageMatchesStyle_core _ _ Hi Hc Hinv1).
  - destruct (stopCamera_core this) as (_ & _ & Hi & Hc).
    exact (imageMatchesStyle_core _ _ Hi Hc Hinv).
  - destruct (stopFaceDetection_core this) as (_ & _ & Hi & Hc).
    exact (imageMatchesStyle_core _ _ Hi Hc Hinv).
  - destruct (WebcamUILib.isActive (webcamUI this)); [| exact Hinv].
    rewrite startFaceDetection_is_a_tick.
    destruct (detectFaces_core this estimate handle) as (_ & _ & Hi & Hc).
    exact (imageMatchesStyle_core _ _ Hi Hc Hinv).
  - unfold updateFaceDetectionConfig, loadFaceDetectionModel.
    destruct (isModelLoaded this); [| exact Hinv].
    cbn [webcamUI model isModelLoaded orb].
    destruct (WebcamUILib.isActive (webcamUI this)); [| exact Hinv].
    destruct loaded; [| exact Hinv].
    rewrite startFaceDetection_is_a_tick.
    match goal with
    | |- imageMatchesStyle (detectFaces ?t _ _) =>
        destruct (detectFaces_core t estimate handle) as (_ & _ & Hi & Hc);
        exact (imageMatchesStyle_core t _ Hi Hc Hinv)
    end.
  - unfold cleanup.
    destruct (stopCamera_core this) as (_ & _ & Hi & Hc).
    apply (imageMatchesStyle_core (stopCamera this));
      [reflexivity | reflexivity |].
    exact (imageMatchesStyle_core _ _ Hi Hc Hinv).
Qed.

(** X20.  Whatever happens to an instance after its construction, there
    is always an overlay image element, and the file it was asked to load
    is the one recorded as the current style's image. *)
Theorem overlay_image_follows_current_style :
  forall ui actions, imageMatchesStyle (actAll (constructor ui) actions).
Proof.
  intros ui actions. unfold actAll.
  assert (Hgen : forall this,
             imageMatchesStyle this ->
             imageMatchesStyle (fold_left act actions this)).
  { induction actions as [| a rest IH]; intros this Hinv; [exact Hinv |].
    cbn [fold_left]. apply IH. apply act_imageMatchesStyle. exact Hinv. }
  apply Hgen. eexists. split; reflexivity.
Qed.

(** ** Reports that disagree with what happens *)

(** X21.  [isFaceDetectionActive] can say yes when the loop is dead: on a
    live, looping application a settings update whose model reload fails
    drops the detector but leaves the old frame handle in place, so the
    report is [true] although no tick will do anything any more. *)
Theorem detection_reported_active_after_failed_reload :
  forall this id estimate handle ticks,
    loopLive this -> isModelLoaded this = true ->
    animationId this = Some id ->
    isFaceDetectionActive
      (updateFaceDetectionConfig this false estimate handle) = true /\
    run (updateFaceDetectionConfig this false estimate handle) ticks =
      updateFaceDetectionConfig this false estimate handle.
Proof.
  intros this id estimate handle ticks (Hrun & _) Hloaded Hid.
  unfold updateFaceDetectionConfig, loadFaceDetectionModel.
  rewrite Hloaded. cbn [webcamUI model isModelLoaded orb].
  unfold WebcamUILib.isActive. rewrite Hrun. split.
  - unfold isFaceDetectionActive, WebcamUILib.isActive. cbn.
    rewrite Hid. exact Hrun.
  - apply run_dead. right; left. reflexivity.
Qed.

(** A running application with a frame request pending. *)
Lemma detection_reported_active_after_failed_reload_witness :
  isFaceDetectionActive
    (updateFaceDetectionConfig (loopingApp (Placement.mk 20 195 100 40 0))
                               false None 8) = true /\
  run (updateFaceDetectionConfig (loopingApp (Placement.mk 20 195 100 40 0))
                                 false None 8)
      [oneFace (meshAround 120) 9]
  = updateFaceDetectionConfig (loopingApp (Placement.mk 20 195 100 40 0))
                              false None 8.
Proof.
  apply (detection_reported_active_after_failed_reload
           (loopingApp (Placement.mk 20 195 100 40 0)) 7 None 8
           [oneFace (meshAround 120) 9]).
  - repeat split; cbn; discriminate.
  - reflexivity.
  - reflexivity.
Defined.

Lemma faceCountUpdate_live this faces canvas ctx :
  loopLive this ->
  WebcamUILib.canvas (webcamUI this) = Some canvas ->
  WebcamUILib.ctx (webcamUI this) = Some ctx ->
  faceCountUpdate this (Some faces) =
  match forEach this
          (ctx ++ [clearRect 0 0 (IZR (Canvas.width canvas))
                             (IZR (Canvas.height canvas))]) faces with
  | (Normal, _, _) => Some (List.length faces)
  | (TypeError, _, _) => None
  end.
Proof.
  intros (Hrun & Hmodel & Hvideo & _) Hcanvas Hctx.
  unfold faceCountUpdate, WebcamUILib.isActive, WebcamUILib.getCanvasContext.
  rewrite Hrun, Hmodel, Hvideo, Hcanvas, Hctx. reflexivity.
Qed.

(** X22.  The face count display and the canvas can disagree.  On a live
    loop, a tick with one face whose mesh lacks an eye corner (or any
    face while the overlay image is not decoded) draws no overlay and yet
    writes the text for one face, with glasses applied; a tick with one
    face whose mesh lacks an eye top draws nothing either and leaves the
    display as it was. *)
Theorem face_count_ignores_what_was_drawn :
  forall this img landmarks handle,
    loopLive this -> (168 < List.length landmarks)%nat ->
    (cornerMissing landmarks \/ assetMissing this ->
       option_map updateFaceCount
         (faceCountUpdate this (Some [mkFace (Some landmarks)]))
       = Some ("✅ Face detected - glasses applied!"%string,
               "#155724"%string) /\
       drawInstructions
         (WebcamUILib.ctx (webcamUI (run this [oneFace landmarks handle])))
       = drawInstructions (WebcamUILib.ctx (webcamUI this))) /\
    (assetReady this img -> topMissing landmarks ->
       faceCountUpdate this (Some [mkFace (Some landmarks)]) = None /\
       drawInstructions
         (WebcamUILib.ctx (webcamUI (run this [oneFace landmarks handle])))
       = drawInstructions (WebcamUILib.ctx (webcamUI this))).
Proof.
  intros this img landmarks handle Hlive Hlen.
  pose proof Hlive as (_ & _ & _ & Hcanvas & Hctx).
  destruct (WebcamUILib.canvas (webcamUI this)) as [canvas |] eqn:Ecanvas;
    [| contradiction].
  destruct (WebcamUILib.ctx (webcamUI this)) as [ctx |] eqn:Ectx;
    [| contradiction].
  rewrite (faceCountUpdate_live this _ canvas ctx Hlive Ecanvas Ectx).
  set (ctx1 := ctx ++ [clearRect 0 0 (IZR (Canvas.width canvas))
                                 (IZR (Canvas.height canvas))]).
  pose proof Hlen as Hlen'. apply Nat.ltb_lt in Hlen'.
  cbn [run oneFace]. split.
  - intros Hskip.
    assert (Hloop : forEach this ctx1 [mkFace (Some landmarks)] =
                    (Normal, this, ctx1)).
    { cbn [forEach]. unfold onFace. cbn [scaledMesh]. rewrite Hlen'.
      destruct Hskip as [Hcorner | Hmissing].
      - rewrite (drawGlassesOnFace_cornerMissing this ctx1 landmarks Hcorner).
        reflexivity.
      - rewrite (drawGlassesOnFace_assetMissing this ctx1 landmarks Hmissing).
        reflexivity. }
    destruct (detectFaces_live this _ handle canvas ctx _ _ _
                Hlive Ecanvas Ectx Hloop) as (_ & Hc & _).
    rewrite Hloop, Hc. split; [reflexivity |].
    apply drawInstructions_clear.
  - intros Hready Htop.
    assert (Hloop : forEach this ctx1 [mkFace (Some landmarks)] =
                    (TypeError, this, ctx1)).
    { cbn [forEach]. unfold onFace. cbn [scaledMesh]. rewrite Hlen'.
      rewrite (drawGlassesOnFace_topMissing this ctx1 img landmarks
                 Hready Htop).
      reflexivity. }
    destruct (detectFaces_live this _ handle canvas ctx _ _ _
                Hlive Ecanvas Ectx Hloop) as (_ & Hc & _).
    rewrite Hloop, Hc. split; [reflexivity |].
    apply drawInstructions_clear.
Qed.

(** A mesh without landmark 33 and a mesh without landmark 159. *)
Lemma face_count_ignores_what_was_drawn_witness :
  option_map updateFaceCount
    (faceCountUpdate (runningApp sentinel)
                     (Some [mkFace (Some (meshWithHole 33))]))
  = Some ("✅ Face detected - glasses applied!"%string, "#155724"%string) /\
  faceCountUpdate (runningApp sentinel)
                  (Some [mkFace (Some (meshWithHole 159))]) = None.
Proof.
  split.
  - exact (proj1
             (proj1 (face_count_ignores_what_was_drawn
                       (runningApp sentinel) image200x80 (meshWithHole 33) 1
                       (runningApp_live _) (meshWithHole_length 33))
                    (or_introl meshWithHole_corner))).
  - exact (proj1
             (proj2 (face_count_ignores_what_was_drawn
                       (runningApp sentinel) image200x80 (meshWithHole 159) 1
                       (runningApp_live _) (meshWithHole_length 159))
                    (runningApp_ready _) meshWithHole_top)).
Defined.

